(** * Per-peer metrics of the crawler: [metrics/peer.go]

    A shallow embedding of the [Peer] entity of package [metrics] and of the
    operations that mutate and export it, with the properties of its
    connection bookkeeping, its per-topic counters, its connected-time
    reconciliation and its CSV export line.

    Go values are embedded as follows.
    - [string]: a sequence of bytes, here [String.string].
    - [uint64], [int64]: [Z], every arithmetic result wrapped explicitly.
    - [float64]: the kernel's binary64 floats ([PrimFloat.float]).
    - [time.Time]: an instant on a nanosecond timeline, [Z].
    - a pointer into a [Peer] ([*MessageMetrics]): the name of the field it
      addresses.
    - a method with a pointer receiver that assigns fields: a function
      [Peer -> Peer]; one that only reads: a function from [Peer]. *)

From Stdlib Require Import ZArith Bool List String Ascii Lia.
From Stdlib Require Import DecimalString Floats.
Import ListNotations.

Local Open Scope string_scope.
Local Open Scope Z_scope.

(** ** Machine integers *)

Definition uint64 := Z.
Definition int64 := Z.

Definition wrap_uint64 (z : Z) : uint64 := z mod 2 ^ 64.

Definition wrap_int64 (z : Z) : int64 := (z + 2 ^ 63) mod 2 ^ 64 - 2 ^ 63.

Definition in_uint64 (z : Z) : Prop := 0 <= z < 2 ^ 64.

Definition in_int64 (z : Z) : Prop := - 2 ^ 63 <= z < 2 ^ 63.

(** [float64(z)] for an integer [z]: the nearest binary64, ties to even. *)
Definition float64_of_int (z : Z) : float :=
  SF2Prim (binary_normalize prec emax z 0 false).

(** ** Package [time] *)

Module time.

(** An instant, in nanoseconds from a fixed origin. *)
Definition Time := Z.

(** A [Duration] is an [int64] count of nanoseconds. *)
Definition Duration := int64.

Definition minDuration : Duration := - 2 ^ 63.
Definition maxDuration : Duration := 2 ^ 63 - 1.

(** [t.Sub(u)]: the duration [t - u], or the minimum (maximum) duration
    when the difference does not fit one. *)
Definition Sub (t u : Time) : Duration :=
  let d := t - u in
  if d <? minDuration then minDuration
  else if maxDuration <? d then maxDuration
  else d.

(** [d.Milliseconds()] is [int64(d) / 1e6]; Go's integer division
    truncates toward zero. *)
Definition Milliseconds (d : Duration) : int64 := d ÷ 1000000.

End time.

(** ** Package [strconv] *)

Module strconv.

Definition FormatBool (b : bool) : string :=
  if b then "true" else "false".

(** [FormatUint(n, 10)]. *)
Definition FormatUint (n : uint64) : string :=
  NilZero.string_of_uint (N.to_uint (Z.to_N n)).

End strconv.

(** ** Package [pgossip]: the names of the gossip topics

    The five topic constants are declared outside this package; they are
    taken as given. *)

Module pgossip.

Record Topics : Set := {
  BeaconBlock : string;
  BeaconAggregateProof : string;
  VoluntaryExit : string;
  ProposerSlashing : string;
  AttesterSlashing : string
}.

Definition all (T : Topics) : list string :=
  [BeaconBlock T; BeaconAggregateProof T; VoluntaryExit T;
   ProposerSlashing T; AttesterSlashing T].

End pgossip.

(** ** Message metrics *)

(** Modelled from the spec: the [MessageMetrics] type and its constructor
    [NewMessageMetrics] are declared in a file of package [metrics] that is
    not part of the sources at hand.  The spec gives a counter with a
    non-negative integer [Count], created zero and only incremented; the
    code reads [Count] as a [uint64]. *)
Record MessageMetrics : Set := { Count : uint64 }.

(** Modelled from the spec: [NewMessageMetrics], not part of the sources at
    hand; the spec has the counter created zero. *)
Definition NewMessageMetrics : MessageMetrics := {| Count := 0 |}.

(** Modelled from the spec: the increment of a counter, not part of the
    sources at hand; the spec has [Increment()] as the only mutator. *)
Definition Increment (m : MessageMetrics) : MessageMetrics :=
  {| Count := wrap_uint64 (Count m + 1) |}.

(** ** The [Peer] struct *)

Record Peer : Set := {
  PeerId : string;
  NodeId : string;
  UserAgent : string;
  ClientName : string;
  ClientOS : string;
  ClientVersion : string;
  Pubkey : string;
  Addrs : string;
  Ip : string;
  Country : string;
  City : string;
  Latency : float;
  ConnectedDirection : string;
  IsConnected : bool;
  Attempted : bool;
  Succeed : bool;
  Attempts : uint64;
  Error : string;
  ConnectionTimes : list time.Time;
  DisconnectionTimes : list time.Time;
  MetadataRequest : bool;
  MetadataSucceed : bool;
  LastExport : int64;
  BeaconBlock : MessageMetrics;
  BeaconAggregateProof : MessageMetrics;
  VoluntaryExit : MessageMetrics;
  ProposerSlashing : MessageMetrics;
  AttesterSlashing : MessageMetrics
}.

(** Field assignments [pm.F = v], one per field the methods assign. *)

Definition set_ConnectedDirection (v : string) (pm : Peer) : Peer :=
  {| PeerId := PeerId pm; NodeId := NodeId pm; UserAgent := UserAgent pm;
     ClientName := ClientName pm; ClientOS := ClientOS pm;
     ClientVersion := ClientVersion pm; Pubkey := Pubkey pm;
     Addrs := Addrs pm; Ip := Ip pm; Country := Country pm; City := City pm;
     Latency := Latency pm; ConnectedDirection := v;
     IsConnected := IsConnected pm; Attempted := Attempted pm;
     Succeed := Succeed pm; Attempts := Attempts pm; Error := Error pm;
     ConnectionTimes := ConnectionTimes pm;
     DisconnectionTimes := DisconnectionTimes pm;
     MetadataRequest := MetadataRequest pm;
     MetadataSucceed := MetadataSucceed pm; LastExport := LastExport pm;
     BeaconBlock := BeaconBlock pm;
     BeaconAggregateProof := BeaconAggregateProof pm;
     VoluntaryExit := VoluntaryExit pm;
     ProposerSlashing := ProposerSlashing pm;
     AttesterSlashing := AttesterSlashing pm |}.

Definition set_IsConnected (v : bool) (pm : Peer) : Peer :=
  {| PeerId := PeerId pm; NodeId := NodeId pm; UserAgent := UserAgent pm;
     ClientName := ClientName pm; ClientOS := ClientOS pm;
     ClientVersion := ClientVersion pm; Pubkey := Pubkey pm;
     Addrs := Addrs pm; Ip := Ip pm; Country := Country pm; City := City pm;
     Latency := Latency pm; ConnectedDirection := ConnectedDirection pm;
     IsConnected := v; Attempted := Attempted pm; Succeed := Succeed pm;
     Attempts := Attempts pm; Error := Error pm;
     ConnectionTimes := ConnectionTimes pm;
     DisconnectionTimes := DisconnectionTimes pm;
     MetadataRequest := MetadataRequest pm;
     MetadataSucceed := MetadataSucceed pm; LastExport := LastExport pm;
     BeaconBlock := BeaconBlock pm;
     BeaconAggregateProof := BeaconAggregateProof pm;
     VoluntaryExit := VoluntaryExit pm;
     ProposerSlashing := ProposerSlashing pm;
     AttesterSlashing := AttesterSlashing pm |}.

Definition set_Attempted (v : bool) (pm : Peer) : Peer :=
  {| PeerId := PeerId pm; NodeId := NodeId pm; UserAgent := UserAgent pm;
     ClientName := ClientName pm; ClientOS := ClientOS pm;
     ClientVersion := ClientVersion pm; Pubkey := Pubkey pm;
     Addrs := Addrs pm; Ip := Ip pm; Country := Country pm; City := City pm;
     Latency := Latency pm; ConnectedDirection := ConnectedDirection pm;
     IsConnected := IsConnected pm; Attempted := v; Succeed := Succeed pm;
     Attempts := Attempts pm; Error := Error pm;
     ConnectionTimes := ConnectionTimes pm;
     DisconnectionTimes := DisconnectionTimes pm;
     MetadataRequest := MetadataRequest pm;
     MetadataSucceed := MetadataSucceed pm; LastExport := LastExport pm;
     BeaconBlock := BeaconBlock pm;
     BeaconAggregateProof := BeaconAggregateProof pm;
     VoluntaryExit := VoluntaryExit pm;
     ProposerSlashing := ProposerSlashing pm;
     AttesterSlashing := AttesterSlashing pm |}.

Definition set_Succeed (v : bool) (pm : Peer) : Peer :=
  {| PeerId := PeerId pm; NodeId := NodeId pm; UserAgent := UserAgent pm;
     ClientName := ClientName pm; ClientOS := ClientOS pm;
     ClientVersion := ClientVersion pm; Pubkey := Pubkey pm;
     Addrs := Addrs pm; Ip := Ip pm; Country := Country pm; City := City pm;
     Latency := Latency pm; ConnectedDirection := ConnectedDirection pm;
     IsConnected := IsConnected pm; Attempted := Attempted pm; Succeed := v;
     Attempts := Attempts pm; Error := Error pm;
     ConnectionTimes := ConnectionTimes pm;
     DisconnectionTimes := DisconnectionTimes pm;
     MetadataRequest := MetadataRequest pm;
     MetadataSucceed := MetadataSucceed pm; LastExport := LastExport pm;
     BeaconBlock := BeaconBlock pm;
     BeaconAggregateProof := BeaconAggregateProof pm;
     VoluntaryExit := VoluntaryExit pm;
     ProposerSlashing := ProposerSlashing pm;
     AttesterSlashing := AttesterSlashing pm |}.

Definition set_Attempts (v : uint64) (pm : Peer) : Peer :=
  {| PeerId := PeerId pm; NodeId := NodeId pm; UserAgent := UserAgent pm;
     ClientName := ClientName pm; ClientOS := ClientOS pm;
     ClientVersion := ClientVersion pm; Pubkey := Pubkey pm;
     Addrs := Addrs pm; Ip := Ip pm; Country := Country pm; City := City pm;
     Latency := Latency pm; ConnectedDirection := ConnectedDirection pm;
     IsConnected := IsConnected pm; Attempted := Attempted pm;
     Succeed := Succeed pm; Attempts := v; Error := Error pm;
     ConnectionTimes := ConnectionTimes pm;
     DisconnectionTimes := DisconnectionTimes pm;
     MetadataRequest := MetadataRequest pm;
     MetadataSucceed := MetadataSucceed pm; LastExport := LastExport pm;
     BeaconBlock := BeaconBlock pm;
     BeaconAggregateProof := BeaconAggregateProof pm;
     VoluntaryExit := VoluntaryExit pm;
     ProposerSlashing := ProposerSlashing pm;
     AttesterSlashing := AttesterSlashing pm |}.

Definition set_Error (v : string) (pm : Peer) : Peer :=
  {| PeerId := PeerId pm; NodeId := NodeId pm; UserAgent := UserAgent pm;
     ClientName := ClientName pm; ClientOS := ClientOS pm;
     ClientVersion := ClientVersion pm; Pubkey := Pubkey pm;
     Addrs := Addrs pm; Ip := Ip pm; Country := Country pm; City := City pm;
     Latency := Latency pm; ConnectedDirection := ConnectedDirection pm;
     IsConnected := IsConnected pm; Attempted := Attempted pm;
     Succeed := Succeed pm; Attempts := Attempts pm; Error := v;
     ConnectionTimes := ConnectionTimes pm;
     DisconnectionTimes := DisconnectionTimes pm;
     MetadataRequest := MetadataRequest pm;
     MetadataSucceed := MetadataSucceed pm; LastExport := LastExport pm;
     BeaconBlock := BeaconBlock pm;
     BeaconAggregateProof := BeaconAggregateProof pm;
     VoluntaryExit := VoluntaryExit pm;
     ProposerSlashing := ProposerSlashing pm;
     AttesterSlashing := AttesterSlashing pm |}.

Definition set_ConnectionTimes (v : list time.Time) (pm : Peer) : Peer :=
  {| PeerId := PeerId pm; NodeId := NodeId pm; UserAgent := UserAgent pm;
     ClientName := ClientName pm; ClientOS := ClientOS pm;
     ClientVersion := ClientVersion pm; Pubkey := Pubkey pm;
     Addrs := Addrs pm; Ip := Ip pm; Country := Country pm; City := City pm;
     Latency := Latency pm; ConnectedDirection := ConnectedDirection pm;
     IsConnected := IsConnected pm; Attempted := Attempted pm;
     Succeed := Succeed pm; Attempts := Attempts pm; Error := Error pm;
     ConnectionTimes := v; DisconnectionTimes := DisconnectionTimes pm;
     MetadataRequest := MetadataRequest pm;
     MetadataSucceed := MetadataSucceed pm; LastExport := LastExport pm;
     BeaconBlock := BeaconBlock pm;
     BeaconAggregateProof := BeaconAggregateProof pm;
     VoluntaryExit := VoluntaryExit pm;
     ProposerSlashing := ProposerSlashing pm;
     AttesterSlashing := AttesterSlashing pm |}.

Definition set_DisconnectionTimes (v : list time.Time) (pm : Peer) : Peer :=
  {| PeerId := PeerId pm; NodeId := NodeId pm; UserAgent := UserAgent pm;
     ClientName := ClientName pm; ClientOS := ClientOS pm;
     ClientVersion := ClientVersion pm; Pubkey := Pubkey pm;
     Addrs := Addrs pm; Ip := Ip pm; Country := Country pm; City := City pm;
     Latency := Latency pm; ConnectedDirection := ConnectedDirection pm;
     IsConnected := IsConnected pm; Attempted := Attempted pm;
     Succeed := Succeed pm; Attempts := Attempts pm; Error := Error pm;
     ConnectionTimes := ConnectionTimes pm; DisconnectionTimes := v;
     MetadataRequest := MetadataRequest pm;
     MetadataSucceed := MetadataSucceed pm; LastExport := LastExport pm;
     BeaconBlock := BeaconBlock pm;
     BeaconAggregateProof := BeaconAggregateProof pm;
     VoluntaryExit := VoluntaryExit pm;
     ProposerSlashing := ProposerSlashing pm;
     AttesterSlashing := AttesterSlashing pm |}.

Definition set_BeaconBlock (v : MessageMetrics) (pm : Peer) : Peer :=
  {| PeerId := PeerId pm; NodeId := NodeId pm; UserAgent := UserAgent pm;
     ClientName := ClientName pm; ClientOS := ClientOS pm;
     ClientVersion := ClientVersion pm; Pubkey := Pubkey pm;
     Addrs := Addrs pm; Ip := Ip pm; Country := Country pm; City := City pm;
     Latency := Latency pm; ConnectedDirection := ConnectedDirection pm;
     IsConnected := IsConnected pm; Attempted := Attempted pm;
     Succeed := Succeed pm; Attempts := Attempts pm; Error := Error pm;
     ConnectionTimes := ConnectionTimes pm;
     DisconnectionTimes := DisconnectionTimes pm;
     MetadataRequest := MetadataRequest pm;
     MetadataSucceed := MetadataSucceed pm; LastExport := LastExport pm;
     BeaconBlock := v; BeaconAggregateProof := BeaconAggregateProof pm;
     VoluntaryExit := VoluntaryExit pm;
     ProposerSlashing := ProposerSlashing pm;
     AttesterSlashing := AttesterSlashing pm |}.

Definition set_BeaconAggregateProof (v : MessageMetrics) (pm : Peer) : Peer :=
  {| PeerId := PeerId pm; NodeId := NodeId pm; UserAgent := UserAgent pm;
     ClientName := ClientName pm; ClientOS := ClientOS pm;
     ClientVersion := ClientVersion pm; Pubkey := Pubkey pm;
     Addrs := Addrs pm; Ip := Ip pm; Country := Country pm; City := City pm;
     Latency := Latency pm; ConnectedDirection := ConnectedDirection pm;
     IsConnected := IsConnected pm; Attempted := Attempted pm;
     Succeed := Succeed pm; Attempts := Attempts pm; Error := Error pm;
     ConnectionTimes := ConnectionTimes pm;
     DisconnectionTimes := DisconnectionTimes pm;
     MetadataRequest := MetadataRequest pm;
     MetadataSucceed := MetadataSucceed pm; LastExport := LastExport pm;
     BeaconBlock := BeaconBlock pm; BeaconAggregateProof := v;
     VoluntaryExit := VoluntaryExit pm;
     ProposerSlashing := ProposerSlashing pm;
     AttesterSlashing := AttesterSlashing pm |}.

Definition set_VoluntaryExit (v : MessageMetrics) (pm : Peer) : Peer :=
  {| PeerId := PeerId pm; NodeId := NodeId pm; UserAgent := UserAgent pm;
     ClientName := ClientName pm; ClientOS := ClientOS pm;
     ClientVersion := ClientVersion pm; Pubkey := Pubkey pm;
     Addrs := Addrs pm; Ip := Ip pm; Country := Country pm; City := City pm;
     Latency := Latency pm; ConnectedDirection := ConnectedDirection pm;
     IsConnected := IsConnected pm; Attempted := Attempted pm;
     Succeed := Succeed pm; Attempts := Attempts pm; Error := Error pm;
     ConnectionTimes := ConnectionTimes pm;
     DisconnectionTimes := DisconnectionTimes pm;
     MetadataRequest := MetadataRequest pm;
     MetadataSucceed := MetadataSucceed pm; LastExport := LastExport pm;
     BeaconBlock := BeaconBlock pm;
     BeaconAggregateProof := BeaconAggregateProof pm; VoluntaryExit := v;
     ProposerSlashing := ProposerSlashing pm;
     AttesterSlashing := AttesterSlashing pm |}.

Definition set_ProposerSlashing (v : MessageMetrics) (pm : Peer) : Peer :=
  {| PeerId := PeerId pm; NodeId := NodeId pm; UserAgent := UserAgent pm;
     ClientName := ClientName pm; ClientOS := ClientOS pm;
     ClientVersion := ClientVersion pm; Pubkey := Pubkey pm;
     Addrs := Addrs pm; Ip := Ip pm; Country := Country pm; City := City pm;
     Latency := Latency pm; ConnectedDirection := ConnectedDirection pm;
     IsConnected := IsConnected pm; Attempted := Attempted pm;
     Succeed := Succeed pm; Attempts := Attempts pm; Error := Error pm;
     ConnectionTimes := ConnectionTimes pm;
     DisconnectionTimes := DisconnectionTimes pm;
     MetadataRequest := MetadataRequest pm;
     MetadataSucceed := MetadataSucceed pm; LastExport := LastExport pm;
     BeaconBlock := BeaconBlock pm;
     BeaconAggregateProof := BeaconAggregateProof pm;
     VoluntaryExit := VoluntaryExit pm; ProposerSlashing := v;
     AttesterSlashing := AttesterSlashing pm |}.

Definition set_AttesterSlashing (v : MessageMetrics) (pm : Peer) : Peer :=
  {| PeerId := PeerId pm; NodeId := NodeId pm; UserAgent := UserAgent pm;
     ClientName := ClientName pm; ClientOS := ClientOS pm;
     ClientVersion := ClientVersion pm; Pubkey := Pubkey pm;
     Addrs := Addrs pm; Ip := Ip pm; Country := Country pm; City := City pm;
     Latency := Latency pm; ConnectedDirection := ConnectedDirection pm;
     IsConnected := IsConnected pm; Attempted := Attempted pm;
     Succeed := Succeed pm; Attempts := Attempts pm; Error := Error pm;
     ConnectionTimes := ConnectionTimes pm;
     DisconnectionTimes := DisconnectionTimes pm;
     MetadataRequest := MetadataRequest pm;
     MetadataSucceed := MetadataSucceed pm; LastExport := LastExport pm;
     BeaconBlock := BeaconBlock pm;
     BeaconAggregateProof := BeaconAggregateProof pm;
     VoluntaryExit := VoluntaryExit pm;
     ProposerSlashing := ProposerSlashing pm; AttesterSlashing := v |}.

(** ** Package [errors] *)

Definition error := string.

Module errors.

Definition New (msg : string) : error := msg.

End errors.

(** ** Package [fmt] *)

Module fmt.

(** [Sprintf("%d", n)] for an [int]. *)
Definition Sprintf_d (n : Z) : string := NilZero.string_of_int (Z.to_int n).

(** The integer nearest to [m * 2 ^ e], ties to even. *)
Definition round_half_even (m e : Z) : Z :=
  if 0 <=? e then m * 2 ^ e
  else
    let d := 2 ^ (- e) in
    let q := m / d in
    let r := m mod d in
    if 2 * r <? d then q
    else if d <? 2 * r then q + 1
    else if Z.even q then q else q + 1.

(** The three digits of [n], for [0 <= n < 1000]. *)
Definition pad3 (n : Z) : string :=
  let s := strconv.FormatUint n in
  if n <? 10 then "00" ++ s else if n <? 100 then "0" ++ s else s.

(** The decimal with three fractional digits of [n] thousandths. *)
Definition fixed3 (neg : bool) (n : Z) : string :=
  (if neg then "-" else "")
    ++ strconv.FormatUint (n / 1000) ++ "." ++ pad3 (n mod 1000).

(** [Sprintf("%.3f", f)]: the exact value of the binary64 [f], rounded to
    the nearest multiple of 1/1000 (ties to even), in positional notation
    with its sign. *)
Definition Sprintf_3f (f : float) : string :=
  match Prim2SF f with
  | S754_zero s => fixed3 s 0
  | S754_infinity s => if s then "-Inf" else "+Inf"
  | S754_nan => "NaN"
  | S754_finite s m e => fixed3 s (round_half_even (Z.pos m * 1000) e)
  end.

End fmt.

(** ** Package [strings] *)

Module strings.

(** [Count(s, sep)] for a separator [sep] of one byte. *)
Fixpoint Count (s : string) (sep : ascii) : nat :=
  match s with
  | EmptyString => 0%nat
  | String c r => if Ascii.eqb c sep then S (Count r sep) else Count r sep
  end.

(** [Split(s, sep)] for a separator [sep] of one byte. *)
Fixpoint Split (s : string) (sep : ascii) : list string :=
  match s with
  | EmptyString => [EmptyString]
  | String c r =>
      if Ascii.eqb c sep then EmptyString :: Split r sep
      else
        match Split r sep with
        | [] => [String c EmptyString]
        | f :: fs => String c f :: fs
        end
  end.

(** [Join(elems, sep)]. *)
Fixpoint Join (elems : list string) (sep : string) : string :=
  match elems with
  | [] => EmptyString
  | [e] => e
  | e :: rest => e ++ sep ++ Join rest sep
  end.

End strings.

Definition comma : ascii := ","%char.

(** The line feed, and the string ["\n"]. *)
Definition lf : ascii := "010"%char.

Definition newline : string := String lf EmptyString.

(** The two bytes that delimit columns and lines of the export. *)
Definition isSeparator (c : ascii) : Prop := c = comma \/ c = lf.

Definition isDigit (c : ascii) : bool :=
  ((48 <=? nat_of_ascii c) && (nat_of_ascii c <=? 57))%nat.

Fixpoint allDigits (s : string) : bool :=
  match s with
  | EmptyString => true
  | String c r => isDigit c && allDigits r
  end.

(** A decimal in positional notation with three fractional digits. *)
Definition threeDecimals (s : string) : Prop :=
  exists sign int frac,
    s = sign ++ int ++ "." ++ frac
    /\ (sign = "" \/ sign = "-")
    /\ int <> "" /\ allDigits int = true
    /\ String.length frac = 3%nat /\ allDigits frac = true.

(** Neither a NaN nor an infinity. *)
Definition isFinite (f : float) : bool :=
  match Prim2SF f with
  | S754_zero _ | S754_finite _ _ _ => true
  | S754_infinity _ | S754_nan => false
  end.

(** A zero, or a finite number with exponent at most [B - prec] and
    magnitude below [2 ^ B]. *)
Definition boundedBy (B : Z) (x : spec_float) : Prop :=
  match x with
  | S754_zero _ => True
  | S754_finite _ m e => e <= B - prec /\ Zdigits2 (Z.pos m) + e <= B
  | S754_infinity _ | S754_nan => False
  end.

(** The binary64 of 60000. *)
Definition sixtyThousand : spec_float :=
  S754_finite false 8246337208320000 (-37).

(** The binary64 [x] is the integer [z] exactly: a zero for 0, else a
    finite number of the sign of [z] whose mantissa [m] and exponent
    [e <= 0] give [m * 2 ^ e = |z|]. *)
Definition represents (z : Z) (x : spec_float) : Prop :=
  match x with
  | S754_zero _ => z = 0
  | S754_finite s m e =>
      s = (z <? 0) /\ e <= 0 /\ Z.pos m = Z.abs z * 2 ^ (- e)
  | S754_infinity _ | S754_nan => False
  end.
(** ** Constructor and methods of [Peer] *)

Definition NewPeer (peerId : string) : Peer :=
  {| PeerId := peerId; NodeId := ""; UserAgent := ""; ClientName := "";
     ClientOS := ""; ClientVersion := ""; Pubkey := ""; Addrs := "";
     Ip := ""; Country := ""; City := ""; Latency := 0%float;
     ConnectedDirection := ""; IsConnected := false; Attempted := false;
     Succeed := false; Attempts := 0; Error := "None";
     ConnectionTimes := []; DisconnectionTimes := [];
     MetadataRequest := false; MetadataSucceed := false; LastExport := 0;
     BeaconBlock := NewMessageMetrics;
     BeaconAggregateProof := NewMessageMetrics;
     VoluntaryExit := NewMessageMetrics;
     ProposerSlashing := NewMessageMetrics;
     AttesterSlashing := NewMessageMetrics |}.

Definition ResetDynamicMetrics (pm : Peer) : Peer :=
  let pm := set_Attempts 0 pm in
  let pm := set_BeaconBlock NewMessageMetrics pm in
  let pm := set_BeaconAggregateProof NewMessageMetrics pm in
  let pm := set_VoluntaryExit NewMessageMetrics pm in
  let pm := set_ProposerSlashing NewMessageMetrics pm in
  set_AttesterSlashing NewMessageMetrics pm.

Definition GetAllMessagesCount (pm : Peer) : uint64 :=
  wrap_uint64
    (wrap_uint64
       (wrap_uint64
          (wrap_uint64 (Count (BeaconBlock pm)
                        + Count (BeaconAggregateProof pm))
           + Count (VoluntaryExit pm))
        + Count (AttesterSlashing pm))
     + Count (ProposerSlashing pm)).

Definition AddConnectionEvent (direction : string) (t : time.Time)
    (pm : Peer) : Peer :=
  let pm := set_ConnectionTimes (ConnectionTimes pm ++ [t])%list pm in
  let pm := set_IsConnected true pm in
  set_ConnectedDirection direction pm.

Definition AddDisconnectionEvent (t : time.Time) (pm : Peer) : Peer :=
  let pm := set_DisconnectionTimes (DisconnectionTimes pm ++ [t])%list pm in
  let pm := set_IsConnected false pm in
  set_ConnectedDirection "" pm.

(** The inner loop of [GetConnectedTime]: the scan of the disconnection
    times for one connection time, from the running total to the running
    total; the [break] leaves the rest of the list unread. *)
Fixpoint scanDisconnections (conTime : time.Time)
    (discTimes : list time.Time) (totalConnectedTime : int64) : int64 :=
  match discTimes with
  | [] => totalConnectedTime
  | discTime :: rest =>
      let singleConnectionTime :=
        time.Milliseconds (time.Sub discTime conTime) in
      if 0 <=? singleConnectionTime
      then wrap_int64 (totalConnectedTime + singleConnectionTime)
      else scanDisconnections conTime rest totalConnectedTime
  end.

(** The value of [totalConnectedTime] when the outer loop ends. *)
Definition totalConnectedTime (pm : Peer) : int64 :=
  fold_left
    (fun total conTime =>
       scanDisconnections conTime (DisconnectionTimes pm) total)
    (ConnectionTimes pm) 0.

Definition GetConnectedTime (pm : Peer) : float :=
  (float64_of_int (totalConnectedTime pm) / 60000)%float.

(** A [*MessageMetrics] obtained from a peer is the address of one of its
    five counter fields. *)
Inductive MessageMetricsRef : Set :=
| RefBeaconBlock
| RefBeaconAggregateProof
| RefVoluntaryExit
| RefProposerSlashing
| RefAttesterSlashing.

Definition load (r : MessageMetricsRef) (pm : Peer) : MessageMetrics :=
  match r with
  | RefBeaconBlock => BeaconBlock pm
  | RefBeaconAggregateProof => BeaconAggregateProof pm
  | RefVoluntaryExit => VoluntaryExit pm
  | RefProposerSlashing => ProposerSlashing pm
  | RefAttesterSlashing => AttesterSlashing pm
  end.

Definition store (r : MessageMetricsRef) (m : MessageMetrics)
    (pm : Peer) : Peer :=
  match r with
  | RefBeaconBlock => set_BeaconBlock m pm
  | RefBeaconAggregateProof => set_BeaconAggregateProof m pm
  | RefVoluntaryExit => set_VoluntaryExit m pm
  | RefProposerSlashing => set_ProposerSlashing m pm
  | RefAttesterSlashing => set_AttesterSlashing m pm
  end.

Section Methods.

(** [utils.FilterError], the normalizer of raw error texts, is declared in
    another package. *)
Variable FilterError : string -> string.

(** The five topic names of package [pgossip]. *)
Variable T : pgossip.Topics.

(** [fmt.Sprint] at a [float64]. *)
Variable Sprint_float64 : float -> string.

Definition AddNewConnectionAttempt (succeed : bool) (err : string)
    (pm : Peer) : Peer :=
  let pm := set_Attempts (wrap_uint64 (Attempts pm + 1)) pm in
  let pm := if negb (Attempted pm) then set_Attempted true pm else pm in
  if succeed then
    let pm := set_Succeed succeed pm in
    set_Error "None" pm
  else
    set_Error (FilterError err) pm.

(** The result pair of a [*MessageMetrics] and an [error]; [None] is [nil]. *)
Definition GetMessageMetrics (pm : Peer) (topicName : string)
    : option MessageMetricsRef * option error :=
  if (topicName =? pgossip.BeaconBlock T)%string then
    (Some RefBeaconBlock, None)
  else if (topicName =? pgossip.BeaconAggregateProof T)%string then
    (Some RefBeaconAggregateProof, None)
  else if (topicName =? pgossip.VoluntaryExit T)%string then
    (Some RefVoluntaryExit, None)
  else if (topicName =? pgossip.ProposerSlashing T)%string then
    (Some RefProposerSlashing, None)
  else if (topicName =? pgossip.AttesterSlashing T)%string then
    (Some RefAttesterSlashing, None)
  else
    (None, Some (errors.New ("unknown topic name: " ++ topicName))).

(** Modelled from the spec: [CountMessage(topic)], whose code (the caller
    of [GetMessageMetrics] that increments through the returned pointer) is
    not part of the sources at hand.  The spec: it resolves the topic name
    to one of the five known counters and increments it, and fails for any
    other topic name. *)
Definition CountMessage (topic : string) (pm : Peer)
    : Peer * option error :=
  match GetMessageMetrics pm topic with
  | (Some r, _) => (store r (Increment (load r pm)) pm, None)
  | (None, err) => (pm, err)
  end.

Definition ToCsvLine (pm : Peer) : string :=
  PeerId pm ++ "," ++
  NodeId pm ++ "," ++
  UserAgent pm ++ "," ++
  ClientName pm ++ "," ++
  ClientVersion pm ++ "," ++
  Pubkey pm ++ "," ++
  Addrs pm ++ "," ++
  Ip pm ++ "," ++
  Country pm ++ "," ++
  City pm ++ "," ++
  strconv.FormatBool (MetadataRequest pm) ++ "," ++
  strconv.FormatBool (MetadataSucceed pm) ++ "," ++
  strconv.FormatBool (Attempted pm) ++ "," ++
  strconv.FormatBool (Succeed pm) ++ "," ++
  strconv.FormatBool (IsConnected pm) ++ "," ++
  strconv.FormatUint (Attempts pm) ++ "," ++
  Error pm ++ "," ++
  Sprint_float64 (Latency pm) ++ "," ++
  fmt.Sprintf_d (Z.of_nat (List.length (ConnectionTimes pm))) ++ "," ++
  fmt.Sprintf_d (Z.of_nat (List.length (DisconnectionTimes pm))) ++ "," ++
  fmt.Sprintf_3f (GetConnectedTime pm) ++ "," ++
  strconv.FormatUint (Count (BeaconBlock pm)) ++ "," ++
  strconv.FormatUint (Count (BeaconAggregateProof pm)) ++ "," ++
  strconv.FormatUint (Count (VoluntaryExit pm)) ++ "," ++
  strconv.FormatUint (Count (ProposerSlashing pm)) ++ "," ++
  strconv.FormatUint (Count (AttesterSlashing pm)) ++ "," ++
  strconv.FormatUint (GetAllMessagesCount pm) ++ newline.

(** The calls that a holder of a [*Peer] can make on it. *)
Inductive PeerOp : Set :=
| OpResetDynamicMetrics
| OpGetAllMessagesCount
| OpAddConnectionEvent (direction : string) (t : time.Time)
| OpAddDisconnectionEvent (t : time.Time)
| OpAddNewConnectionAttempt (succeed : bool) (err : string)
| OpGetConnectedTime
| OpGetMessageMetrics (topicName : string)
| OpCountMessage (topic : string)
| OpToCsvLine
| OpLogPeer.

(** The peer after a call. *)
Definition applyOp (op : PeerOp) (pm : Peer) : Peer :=
  match op with
  | OpResetDynamicMetrics => ResetDynamicMetrics pm
  | OpAddConnectionEvent direction t => AddConnectionEvent direction t pm
  | OpAddDisconnectionEvent t => AddDisconnectionEvent t pm
  | OpAddNewConnectionAttempt succeed err =>
      AddNewConnectionAttempt succeed err pm
  | OpCountMessage topic => fst (CountMessage topic pm)
  | OpGetAllMessagesCount | OpGetConnectedTime | OpGetMessageMetrics _
  | OpToCsvLine | OpLogPeer => pm
  end.

Definition applyOps (ops : list PeerOp) (pm : Peer) : Peer :=
  fold_left (fun pm op => applyOp op pm) ops pm.

End Methods.

(** ** Reference definitions, in the words of the documentation *)

(** The pairing of connection and disconnection instants as documented:
    for a connection instant [c], the first disconnection instant [d], in
    recorded order, with [d - c] non-negative. *)
Definition documentedMatch (c : time.Time) (discTimes : list time.Time)
    : option time.Time :=
  find (fun d => 0 <=? d - c) discTimes.

(** What the documented pairing contributes for [c], in milliseconds. *)
Definition documentedContribution (c : time.Time)
    (discTimes : list time.Time) : Z :=
  match documentedMatch c discTimes with
  | Some d => time.Milliseconds (time.Sub d c)
  | None => 0
  end.

Definition documentedTotal (conTimes discTimes : list time.Time) : Z :=
  fold_right Z.add 0
    (map (fun c => documentedContribution c discTimes) conTimes).

(** The pairing that [GetConnectedTime] computes: the first disconnection
    instant whose distance from [c], in whole milliseconds, is
    non-negative. *)
Definition singleConnectionTime (c d : time.Time) : int64 :=
  time.Milliseconds (time.Sub d c).

Definition firstMatch (c : time.Time) (discTimes : list time.Time)
    : option time.Time :=
  find (fun d => 0 <=? singleConnectionTime c d) discTimes.

Definition contribution (c : time.Time) (discTimes : list time.Time) : Z :=
  match firstMatch c discTimes with
  | Some d => singleConnectionTime c d
  | None => 0
  end.

Definition contributions (conTimes discTimes : list time.Time) : Z :=
  fold_right Z.add 0 (map (fun c => contribution c discTimes) conTimes).

(** One millisecond, in nanoseconds. *)
Definition Millisecond : time.Duration := 1000000.

(** The 27 columns of the export line, in their documented order. *)
Definition csvFields (Sprint_float64 : float -> string) (pm : Peer)
    : list string :=
  let literal (b : bool) := if b then "true" else "false" in
  [ PeerId pm; NodeId pm; UserAgent pm; ClientName pm; ClientVersion pm;
    Pubkey pm; Addrs pm; Ip pm; Country pm; City pm;
    literal (MetadataRequest pm); literal (MetadataSucceed pm);
    literal (Attempted pm); literal (Succeed pm); literal (IsConnected pm);
    strconv.FormatUint (Attempts pm); Error pm;
    Sprint_float64 (Latency pm);
    fmt.Sprintf_d (Z.of_nat (List.length (ConnectionTimes pm)));
    fmt.Sprintf_d (Z.of_nat (List.length (DisconnectionTimes pm)));
    fmt.Sprintf_3f (GetConnectedTime pm);
    strconv.FormatUint (Count (BeaconBlock pm));
    strconv.FormatUint (Count (BeaconAggregateProof pm));
    strconv.FormatUint (Count (VoluntaryExit pm));
    strconv.FormatUint (Count (ProposerSlashing pm));
    strconv.FormatUint (Count (AttesterSlashing pm));
    strconv.FormatUint (GetAllMessagesCount pm) ].

(** The string-valued columns, which the export copies as they are. *)
Definition stringFields (pm : Peer) : list string :=
  [ PeerId pm; NodeId pm; UserAgent pm; ClientName pm; ClientVersion pm;
    Pubkey pm; Addrs pm; Ip pm; Country pm; City pm; Error pm ].

(** The number of occurrences of the byte [c] in a list of strings. *)
Definition sumCounts (fs : list string) (c : ascii) : nat :=
  fold_right Nat.add 0%nat (map (fun f => strings.Count f c) fs).

(** The number of occurrences of the byte [c] in the string columns. *)
Definition countInStringFields (c : ascii) (pm : Peer) : nat :=
  sumCounts (stringFields pm) c.

(** The topic name that selects a counter. *)
Definition topicOf (T : pgossip.Topics) (r : MessageMetricsRef) : string :=
  match r with
  | RefBeaconBlock => pgossip.BeaconBlock T
  | RefBeaconAggregateProof => pgossip.BeaconAggregateProof T
  | RefVoluntaryExit => pgossip.VoluntaryExit T
  | RefProposerSlashing => pgossip.ProposerSlashing T
  | RefAttesterSlashing => pgossip.AttesterSlashing T
  end.

(** A run of connection attempts, each with its outcome and error text. *)
Definition recordAttempts (FilterError : string -> string)
    (calls : list (bool * string)) (pm : Peer) : Peer :=
  fold_left
    (fun pm call => AddNewConnectionAttempt FilterError (fst call) (snd call) pm)
    calls pm.

Definition isAttempt (op : PeerOp) : bool :=
  match op with
  | OpAddNewConnectionAttempt _ _ => true
  | _ => false
  end.

(** ** Sample data *)

Definition sampleTopics : pgossip.Topics :=
  {| pgossip.BeaconBlock := "beacon_block";
     pgossip.BeaconAggregateProof := "beacon_aggregate_and_proof";
     pgossip.VoluntaryExit := "voluntary_exit";
     pgossip.ProposerSlashing := "proposer_slashing";
     pgossip.AttesterSlashing := "attester_slashing" |}.

(** A normalizer that keeps the text before the first colon. *)
Fixpoint beforeColon (s : string) : string :=
  match s with
  | EmptyString => EmptyString
  | String c r => if Ascii.eqb c ":"%char then EmptyString
                  else String c (beforeColon r)
  end.

(** The rendering of the latency [0], the latency of every sample peer. *)
Definition Sprint_zero (f : float) : string := "0".

(** A peer connected at 0 ms and 10 ms and disconnected at 5 ms and 8 ms. *)
Definition peerTwoSessions : Peer :=
  AddDisconnectionEvent (8 * Millisecond)
    (AddDisconnectionEvent (5 * Millisecond)
       (AddConnectionEvent "inbound" (10 * Millisecond)
          (AddConnectionEvent "inbound" 0 (NewPeer "16Uiu2HAm")))).

(** A peer with two sessions, from 0 ms to 10 ms and from 10.5 ms to
    20 ms: it reconnects half a millisecond after its disconnection. *)
Definition peerQuickReconnect : Peer :=
  AddDisconnectionEvent (20 * Millisecond)
    (AddConnectionEvent "outbound" (10 * Millisecond + 500000)
       (AddDisconnectionEvent (10 * Millisecond)
          (AddConnectionEvent "outbound" 0 (NewPeer "16Uiu2HAm")))).

(** A peer with one session of 90.000999999 seconds. *)
Definition peerNinetySeconds : Peer :=
  AddDisconnectionEvent (90000 * Millisecond + 999999)
    (AddConnectionEvent "inbound" 0 (NewPeer "16Uiu2HAm")).

(** A peer whose user agent holds a comma. *)
Definition peerCommaAgent : Peer :=
  {| PeerId := "16Uiu2HAm"; NodeId := "a1b2"; UserAgent := "teku/v21.1,linux";
     ClientName := "teku"; ClientOS := "linux"; ClientVersion := "v21.1";
     Pubkey := "04ab"; Addrs := "/ip4/10.0.0.1/tcp/9000"; Ip := "10.0.0.1";
     Country := "ES"; City := "Barcelona"; Latency := 0%float;
     ConnectedDirection := ""; IsConnected := false; Attempted := true;
     Succeed := true; Attempts := 1; Error := "None";
     ConnectionTimes := [0]; DisconnectionTimes := [6000 * Millisecond];
     MetadataRequest := true; MetadataSucceed := true; LastExport := 0;
     BeaconBlock := {| Count := 3 |};
     BeaconAggregateProof := {| Count := 4 |};
     VoluntaryExit := NewMessageMetrics;
     ProposerSlashing := NewMessageMetrics;
     AttesterSlashing := {| Count := 1 |} |}.

(** The same peer with a user agent free of commas. *)
Definition peerPlain : Peer :=
  {| PeerId := "16Uiu2HAm"; NodeId := "a1b2"; UserAgent := "teku/v21.1";
     ClientName := "teku"; ClientOS := "linux"; ClientVersion := "v21.1";
     Pubkey := "04ab"; Addrs := "/ip4/10.0.0.1/tcp/9000"; Ip := "10.0.0.1";
     Country := "ES"; City := "Barcelona"; Latency := 0%float;
     ConnectedDirection := ""; IsConnected := false; Attempted := true;
     Succeed := true; Attempts := 1; Error := "None";
     ConnectionTimes := [0]; DisconnectionTimes := [6000 * Millisecond];
     MetadataRequest := true; MetadataSucceed := true; LastExport := 0;
     BeaconBlock := {| Count := 3 |};
     BeaconAggregateProof := {| Count := 4 |};
     VoluntaryExit := NewMessageMetrics;
     ProposerSlashing := NewMessageMetrics;
     AttesterSlashing := {| Count := 1 |} |}.

(** ** What a sequence of calls records *)

(** The instants of the connection events among the calls, in order. *)
Definition connectionInstants (ops : list PeerOp) : list time.Time :=
  flat_map
    (fun op =>
       match op with OpAddConnectionEvent _ t => [t] | _ => [] end)
    ops.

(** The instants of the disconnection events among the calls, in order. *)
Definition disconnectionInstants (ops : list PeerOp) : list time.Time :=
  flat_map
    (fun op => match op with OpAddDisconnectionEvent t => [t] | _ => [] end)
    ops.

(** What the last connection or disconnection event among the calls
    leaves in [IsConnected] and [ConnectedDirection], if there is one. *)
Fixpoint lastConnectivity (ops : list PeerOp) : option (bool * string) :=
  match ops with
  | [] => None
  | op :: rest =>
      match lastConnectivity rest with
      | Some st => Some st
      | None =>
          match op with
          | OpAddConnectionEvent direction _ => Some (true, direction)
          | OpAddDisconnectionEvent _ => Some (false, "")
          | _ => None
          end
      end
  end.

(** The last connection attempt among the calls, if there is one. *)
Fixpoint lastAttempt (ops : list PeerOp) : option (bool * string) :=
  match ops with
  | [] => None
  | op :: rest =>
      match lastAttempt rest with
      | Some a => Some a
      | None =>
          match op with
          | OpAddNewConnectionAttempt succeed err => Some (succeed, err)
          | _ => None
          end
      end
  end.

Definition isSuccess (op : PeerOp) : bool :=
  match op with
  | OpAddNewConnectionAttempt succeed _ => succeed
  | _ => false
  end.

Definition isReset (op : PeerOp) : bool :=
  match op with
  | OpResetDynamicMetrics => true
  | _ => false
  end.

(** The calls after the last [ResetDynamicMetrics], all of them when there
    is none. *)
Fixpoint sinceLastReset (ops : list PeerOp) : list PeerOp :=
  match ops with
  | [] => []
  | op :: rest =>
      if existsb isReset rest then sinceLastReset rest
      else if isReset op then rest
      else op :: rest
  end.

(** The number of connection attempts among the calls. *)
Definition countAttempts (ops : list PeerOp) : Z :=
  Z.of_nat (List.length (filter isAttempt ops)).

(** The calls that assign a topic counter. *)
Definition touchesCounters (op : PeerOp) : bool :=
  match op with
  | OpResetDynamicMetrics | OpCountMessage _ => true
  | _ => false
  end.

(** ** Sessions *)

(** The most that one pair of instants can contribute: the longest
    [Duration], in whole milliseconds. *)
Definition maxSingleConnectionTime : int64 := 9223372036854.

(** Sessions, each a connection instant and its disconnection instant, in
    order of time from [t0] on, every reconnection at least a millisecond
    after the disconnection before it. *)
Fixpoint sessionsFrom (t0 : time.Time)
    (sessions : list (time.Time * time.Time)) : Prop :=
  match sessions with
  | [] => True
  | (c, d) :: rest =>
      t0 <= c /\ c <= d /\ sessionsFrom (d + Millisecond) rest
  end.

(** The lengths of the sessions, in whole milliseconds, added up. *)
Definition sessionsTotal (sessions : list (time.Time * time.Time)) : Z :=
  fold_right Z.add 0
    (map (fun s => singleConnectionTime (fst s) (snd s)) sessions).

(** The sign of a binary64: [true] for a negative number, zero or
    infinity. *)
Definition signOf (x : spec_float) : bool :=
  match x with
  | S754_zero s | S754_infinity s | S754_finite s _ _ => s
  | S754_nan => false
  end.

Definition signBit (f : float) : bool := signOf (Prim2SF f).

(** A decimal in positional notation with three fractional digits and no
    sign. *)
Definition unsignedThreeDecimals (s : string) : Prop :=
  exists int frac,
    s = int ++ "." ++ frac
    /\ int <> "" /\ allDigits int = true
    /\ String.length frac = 3%nat /\ allDigits frac = true.

(** Three sessions, the second beginning 1 ms after the first ends. *)
Definition sampleSessions : list (time.Time * time.Time) :=
  [(0, 10 * Millisecond);
   (11 * Millisecond, 11 * Millisecond + 2500000);
   (60 * Millisecond, 90 * Millisecond)].

(** A peer with the three sessions and a connection still open. *)
Definition peerThreeSessions : Peer :=
  set_DisconnectionTimes (map snd sampleSessions)
    (set_ConnectionTimes
       (map fst sampleSessions ++ [200 * Millisecond])%list
       (NewPeer "16Uiu2HAm")).

(** A sequence of calls on a peer: two attempts, a session, a reset and a
    third attempt. *)
Definition sampleOps : list PeerOp :=
  [OpAddNewConnectionAttempt false "dial backoff: peer unreachable";
   OpAddNewConnectionAttempt true "";
   OpAddConnectionEvent "outbound" 0;
   OpGetMessageMetrics "beacon_block";
   OpAddDisconnectionEvent (10 * Millisecond);
   OpResetDynamicMetrics;
   OpAddNewConnectionAttempt false "context deadline exceeded";
   OpToCsvLine].

(** * Properties *)

(** ** Machine arithmetic *)

Lemma wrap_uint64_range (z : Z) : in_uint64 (wrap_uint64 z).
Proof. unfold in_uint64, wrap_uint64. apply Z.mod_pos_bound. lia. Qed.

Lemma wrap_uint64_small (z : Z) : in_uint64 z -> wrap_uint64 z = z.
Proof. unfold in_uint64, wrap_uint64. intros Hz. now apply Z.mod_small. Qed.

Lemma wrap_uint64_add_l (a b : Z) :
  wrap_uint64 (wrap_uint64 a + b) = wrap_uint64 (a + b).
Proof. unfold wrap_uint64. apply Z.add_mod_idemp_l. lia. Qed.

Lemma wrap_int64_range (z : Z) : in_int64 (wrap_int64 z).
Proof.
  unfold in_int64, wrap_int64.
  pose proof (Z.mod_pos_bound (z + 2 ^ 63) (2 ^ 64)). lia.
Qed.

Lemma wrap_int64_small (z : Z) : in_int64 z -> wrap_int64 z = z.
Proof.
  unfold in_int64, wrap_int64. intros Hz.
  rewrite Z.mod_small; lia.
Qed.

Lemma wrap_int64_add_l (a b : Z) :
  wrap_int64 (wrap_int64 a + b) = wrap_int64 (a + b).
Proof.
  unfold wrap_int64.
  replace ((a + 2 ^ 63) mod 2 ^ 64 - 2 ^ 63 + b + 2 ^ 63)
    with ((a + 2 ^ 63) mod 2 ^ 64 + b) by lia.
  rewrite Z.add_mod_idemp_l by lia.
  do 2 f_equal. lia.
Qed.

(** ** Binary64 values *)

Lemma digits2_pos_size (p : positive) : digits2_pos p = Pos.size p.
Proof. induction p; cbn; now rewrite ?IHp. Qed.

Lemma Zdigits2_log2 (m : Z) : 0 < m -> Zdigits2 m = Z.log2 m + 1.
Proof.
  destruct m as [|p|p]; try lia. intros _.
  cbn [Zdigits2]. rewrite digits2_pos_size.
  destruct p; cbn [Pos.size Z.log2]; lia.
Qed.

Lemma Zdigits2_nonneg (m : Z) : 0 <= Zdigits2 m.
Proof. destruct m; cbn; lia. Qed.

Lemma Zdigits2_mono (a b : Z) : 0 <= a <= b -> Zdigits2 a <= Zdigits2 b.
Proof.
  intros H. destruct (Z.eq_dec a 0) as [->|Ha].
  - apply Zdigits2_nonneg.
  - rewrite !Zdigits2_log2 by lia.
    pose proof (Z.log2_le_mono a b). lia.
Qed.

Lemma Zdigits2_succ (a : Z) : 0 <= a -> Zdigits2 (a + 1) <= Zdigits2 a + 1.
Proof.
  intros H. destruct (Z.eq_dec a 0) as [->|Ha]; [cbn; lia|].
  rewrite !Zdigits2_log2 by lia.
  pose proof (Z.log2_succ_le a). unfold Z.succ in *. lia.
Qed.

Lemma Zdigits2_shiftr (m n : Z) :
  0 <= m -> 0 <= n -> Zdigits2 (Z.shiftr m n) <= Z.max 0 (Zdigits2 m - n).
Proof.
  intros Hm Hn. destruct (Z.eq_dec (Z.shiftr m n) 0) as [->|Hq]; [cbn; lia|].
  assert (0 <= Z.shiftr m n) by now apply Z.shiftr_nonneg.
  assert (0 < m).
  { destruct (Z.eq_dec m 0) as [->|]; [|lia].
    now rewrite Z.shiftr_0_l in Hq. }
  rewrite !Zdigits2_log2 by lia.
  rewrite Z.log2_shiftr by lia.
  destruct (Z.le_gt_cases n (Z.log2 m)); [lia|].
  exfalso. apply Hq. apply Z.shiftr_eq_0; lia.
Qed.

Lemma Zdigits2_shiftl (m s : Z) :
  0 < m -> 0 <= s -> Zdigits2 (Z.shiftl m s) = Zdigits2 m + s.
Proof.
  intros Hm Hs.
  assert (0 < Z.shiftl m s).
  { rewrite Z.shiftl_mul_pow2 by lia. apply Z.mul_pos_pos; [lia|].
    now apply Z.pow_pos_nonneg. }
  rewrite !Zdigits2_log2 by lia. rewrite Z.log2_shiftl by lia. lia.
Qed.

Lemma iter_xO_shiftl (m d : positive) :
  Z.pos (Pos.iter xO m d) = Z.shiftl (Z.pos m) (Z.pos d).
Proof.
  cbn [Z.shiftl].
  apply (Pos.iter_swap_gen _ _ Z.pos xO (Z.mul 2)). reflexivity.
Qed.

Lemma shr_1_half (mrs : shr_record) :
  0 <= shr_m mrs -> shr_m (shr_1 mrs) = shr_m mrs / 2.
Proof.
  destruct mrs as [m r s]. cbn [shr_m]. intros Hm.
  rewrite <- Z.div2_div.
  destruct m as [|[p|p|]|p]; try reflexivity. lia.
Qed.

Lemma iter_shr_1 (p : positive) : forall mrs,
  0 <= shr_m mrs ->
  shr_m (iter_pos shr_1 p mrs) = shr_m mrs / 2 ^ Z.pos p.
Proof.
  assert (P : forall q, 0 < 2 ^ Z.pos q)
    by (intros; now apply Z.pow_pos_nonneg).
  assert (N : forall a q, 0 <= a -> 0 <= a / 2 ^ Z.pos q)
    by (intros; apply Z.div_pos; auto).
  induction p as [p IH|p IH|]; intros mrs Hm; cbn [iter_pos].
  - assert (H1 : 0 <= shr_m (shr_1 mrs))
      by (rewrite shr_1_half by auto; apply Z.div_pos; lia).
    assert (H2 : 0 <= shr_m (iter_pos shr_1 p (shr_1 mrs)))
      by (rewrite IH by auto; now apply N).
    assert (E : 2 ^ Z.pos p~1 = 2 * 2 ^ Z.pos p * 2 ^ Z.pos p).
    { change (Z.pos p~1) with (2 * Z.pos p + 1).
      replace (2 * Z.pos p + 1) with (1 + Z.pos p + Z.pos p) by lia.
      now rewrite !Z.pow_add_r by lia. }
    rewrite (IH _ H2), (IH _ H1), shr_1_half by auto.
    pose proof (P p).
    rewrite E, !Z.div_div by lia. apply f_equal. ring.
  - assert (H2 : 0 <= shr_m (iter_pos shr_1 p mrs))
      by (rewrite IH by auto; now apply N).
    assert (E : 2 ^ Z.pos p~0 = 2 ^ Z.pos p * 2 ^ Z.pos p).
    { change (Z.pos p~0) with (2 * Z.pos p).
      replace (2 * Z.pos p) with (Z.pos p + Z.pos p) by lia.
      now rewrite !Z.pow_add_r by lia. }
    rewrite (IH _ H2), (IH _ Hm).
    pose proof (P p).
    rewrite E, !Z.div_div by lia. apply f_equal. ring.
  - now apply shr_1_half.
Qed.

Lemma shr_m_of_loc (m : Z) (l : location) :
  shr_m (shr_record_of_loc m l) = m.
Proof. destruct l as [|[]]; reflexivity. Qed.

(** The first step of rounding: the exponent rises to the canonical one,
    and the magnitude does not grow. *)
Lemma shr_fexp_bound (m e : Z) (l : location) :
  0 <= m ->
  let '(mrs, e') := shr_fexp prec emax m e l in
  e' = Z.max e (fexp prec emax (Zdigits2 m + e))
  /\ 0 <= shr_m mrs
  /\ Zdigits2 (shr_m mrs) + e' <= Z.max (Zdigits2 m + e) e'.
Proof.
  intros Hm. unfold shr_fexp, shr.
  destruct (fexp prec emax (Zdigits2 m + e) - e) as [|p|p] eqn:E.
  - rewrite shr_m_of_loc. repeat split; lia.
  - assert (H0 : 0 <= shr_m (shr_record_of_loc m l))
      by now rewrite shr_m_of_loc.
    rewrite (iter_shr_1 p _ H0), shr_m_of_loc.
    rewrite <- Z.shiftr_div_pow2 by lia.
    pose proof (Zdigits2_shiftr m (Z.pos p) Hm ltac:(lia)).
    pose proof (Z.shiftr_nonneg m (Z.pos p)).
    repeat split; lia.
  - rewrite shr_m_of_loc. repeat split; lia.
Qed.

Lemma round_nearest_even_bound (m : Z) (l : location) :
  0 <= m ->
  0 <= round_nearest_even m l
  /\ Zdigits2 (round_nearest_even m l) <= Zdigits2 m + 1.
Proof.
  intros Hm. pose proof (Zdigits2_succ m Hm).
  destruct l as [|[]]; cbn [round_nearest_even];
    try destruct (Z.even m); split; lia.
Qed.

(** Rounding a magnitude below [2 ^ (B - 1)] whose exponent is at most
    [B - prec] gives no infinity, for [B] up to [emax]. *)
Lemma binary_round_aux_bounded (B : Z) (sx : bool) (mx ex : Z)
    (lx : location) :
  3 - emax <= B <= emax ->
  0 <= mx -> ex <= B - prec -> Zdigits2 mx + ex <= B - 1 ->
  boundedBy B (binary_round_aux prec emax sx mx ex lx).
Proof.
  intros HB Hm He Hd. unfold binary_round_aux.
  pose proof (shr_fexp_bound mx ex lx Hm) as S1.
  destruct (shr_fexp prec emax mx ex lx) as [mrs' e'].
  destruct S1 as (E1 & M1 & D1).
  pose proof (round_nearest_even_bound (shr_m mrs')
                (loc_of_shr_record mrs') M1) as (R0 & R1).
  pose proof (shr_fexp_bound
                (round_nearest_even (shr_m mrs') (loc_of_shr_record mrs'))
                e' loc_Exact R0) as S2.
  destruct (shr_fexp prec emax
              (round_nearest_even (shr_m mrs') (loc_of_shr_record mrs'))
              e' loc_Exact) as [mrs'' e''].
  destruct S2 as (E2 & M2 & D2).
  destruct (shr_m mrs'') as [|m|m] eqn:Em; [exact I| |lia].
  unfold fexp, SpecFloat.emin, prec, emax in *.
  destruct (Z.leb_spec e'' (1024 - 53)); cbn [boundedBy]; unfold prec; lia.
Qed.

Lemma binary_round_bounded (sx : bool) (m : positive) :
  Zdigits2 (Z.pos m) <= 64 ->
  boundedBy 65 (binary_round prec emax sx m 0).
Proof.
  intros Hd. unfold binary_round, shl_align.
  change (Z.pos (digits2_pos m)) with (Zdigits2 (Z.pos m)).
  destruct (fexp prec emax (Zdigits2 (Z.pos m) + 0) - 0) as [|d|d] eqn:E;
    apply binary_round_aux_bounded;
    rewrite ?iter_xO_shiftl, ?Zdigits2_shiftl by lia;
    unfold prec, emax in *; try lia.
  apply Z.shiftl_nonneg. lia.
Qed.

Lemma binary_normalize_bounded (z : Z) :
  Z.abs z <= 2 ^ 63 ->
  boundedBy 65 (binary_normalize prec emax z 0 false).
Proof.
  intros Hz.
  assert (D : forall p, Z.pos p <= 2 ^ 63 -> Zdigits2 (Z.pos p) <= 64).
  { intros p Hp. rewrite Zdigits2_log2 by lia.
    assert (Z.log2 (Z.pos p) < 64); [|lia].
    apply Z.log2_lt_pow2; lia. }
  destruct z as [|p|p]; cbn [binary_normalize boundedBy]; [exact I| |];
    apply binary_round_bounded, D; lia.
Qed.

Lemma Prim2SF_60000 : Prim2SF 60000%float = sixtyThousand.
Proof. vm_compute. reflexivity. Qed.

Lemma SFdiv_60000_bounded (x : spec_float) :
  boundedBy 65 x -> boundedBy 103 (SFdiv prec emax x sixtyThousand).
Proof.
  destruct x as [s|s| |s m e]; cbn [boundedBy]; try tauto.
  intros [He Hd]. unfold prec in He.
  unfold sixtyThousand, SFdiv, SFdiv_core_binary.
  change (Zdigits2 8246337208320000) with 53.
  set (d1 := Zdigits2 (Z.pos m)) in *.
  set (e' := Z.min (fexp prec emax (d1 + e - (53 + -37))) (e - -37)).
  assert (He' : e' <= e + 37) by (unfold e'; lia).
  set (m' := match e - -37 - e' with
             | 0 => Z.pos m
             | Z.pos _ => Z.shiftl (Z.pos m) (e - -37 - e')
             | Z.neg _ => 0
             end).
  assert (Hm' : 0 <= m' /\ Zdigits2 m' + e' <= d1 + e + 37).
  { unfold m'. destruct (e - -37 - e') as [|s'|s'] eqn:Es; try lia.
    rewrite Zdigits2_shiftl by lia. fold d1.
    pose proof (Z.shiftl_nonneg (Z.pos m) (Z.pos s')). lia. }
  destruct (Z.div_eucl m' 8246337208320000) as [q r] eqn:Eq.
  assert (Hq : q = m' / 8246337208320000) by (unfold Z.div; now rewrite Eq).
  assert (0 <= q <= m').
  { rewrite Hq. split; [apply Z.div_pos; lia|].
    apply Z.div_le_upper_bound; lia. }
  pose proof (Zdigits2_mono q m' ltac:(lia)).
  apply binary_round_aux_bounded; unfold prec, emax; lia.
Qed.

Lemma binary_round_aux_opp (m e : Z) (l : location) :
  SFopp (binary_round_aux prec emax false m e l)
  = binary_round_aux prec emax true m e l.
Proof.
  unfold binary_round_aux.
  destruct (shr_fexp prec emax m e l) as [mrs' e'].
  destruct (shr_fexp prec emax _ e' loc_Exact) as [mrs'' e''].
  destruct (shr_m mrs''); try reflexivity.
  destruct (e'' <=? emax - prec); reflexivity.
Qed.

Lemma binary_round_opp (m : positive) (e : Z) :
  SFopp (binary_round prec emax false m e) = binary_round prec emax true m e.
Proof.
  unfold binary_round.
  destruct (shl_align m e _) as [mz ez]. apply binary_round_aux_opp.
Qed.

(** The conversions of the integers that an unsigned 63-bit word holds
    are the values of a primitive operation, hence valid, and so are
    their opposites. *)
Lemma binary_normalize_valid (z : Z) :
  Z.abs z < 2 ^ 63 ->
  valid_binary (binary_normalize prec emax z 0 false) = true.
Proof.
  intros Hz.
  assert (W : forall p, Z.pos p < 2 ^ 63 ->
            Prim2SF (of_uint63 (Uint63.of_Z (Z.pos p)))
            = binary_round prec emax false p 0).
  { intros p Hp. rewrite of_uint63_spec.
    change Uint63Axioms.to_Z with Uint63.to_Z.
    rewrite Uint63.of_Z_spec, Z.mod_small by (change Uint63.wB with (2 ^ 63); lia).
    reflexivity. }
  destruct z as [|p|p]; cbn [binary_normalize]; [reflexivity| |].
  - rewrite <- W by lia. apply Prim2SF_valid.
  - rewrite <- binary_round_opp, <- W, <- opp_spec by lia.
    apply Prim2SF_valid.
Qed.

Lemma Prim2SF_float64_of_int (z : Z) :
  in_int64 z ->
  Prim2SF (float64_of_int z) = binary_normalize prec emax z 0 false.
Proof.
  intros Hz. unfold in_int64 in Hz.
  destruct (Z.eq_dec z (- 2 ^ 63)) as [->|Hmin];
    [vm_compute; reflexivity|].
  apply Prim2SF_SF2Prim, binary_normalize_valid. lia.
Qed.

(** The quotient of the [float64] of an [int64] by 60000 is finite. *)
Lemma float64_of_int_div_finite (z : Z) :
  in_int64 z -> isFinite (float64_of_int z / 60000) = true.
Proof.
  intros Hz. unfold isFinite.
  rewrite div_spec, Prim2SF_60000, Prim2SF_float64_of_int by assumption.
  pose proof (SFdiv_60000_bounded (binary_normalize prec emax z 0 false))
    as H.
  unfold SF64div.
  destruct (SFdiv prec emax _ sixtyThousand); try reflexivity;
    exfalso; apply H; apply binary_normalize_bounded;
    unfold in_int64 in Hz; lia.
Qed.

Lemma binary_round_exact (sx : bool) (p : positive) :
  Z.pos p < 2 ^ 53 ->
  exists m e,
    binary_round prec emax sx p 0 = S754_finite sx m e
    /\ e <= 0 /\ Z.pos m = Z.pos p * 2 ^ (- e).
Proof.
  intros Hp.
  assert (D : 1 <= Zdigits2 (Z.pos p) <= 53).
  { rewrite Zdigits2_log2 by lia.
    pose proof (Z.log2_nonneg (Z.pos p)).
    assert (Z.log2 (Z.pos p) < 53) by (apply Z.log2_lt_pow2; lia). lia. }
  assert (A : exists mz ez,
            shl_align p 0 (fexp prec emax (Z.pos (digits2_pos p) + 0))
            = (mz, ez)
            /\ ez = Zdigits2 (Z.pos p) - 53
            /\ Z.pos mz = Z.pos p * 2 ^ (- ez)
            /\ Zdigits2 (Z.pos mz) = 53).
  { unfold shl_align.
    change (Z.pos (digits2_pos p)) with (Zdigits2 (Z.pos p)).
    assert (F : fexp prec emax (Zdigits2 (Z.pos p) + 0)
                = Zdigits2 (Z.pos p) - 53)
      by (unfold fexp, SpecFloat.emin, prec, emax; lia).
    rewrite F.
    destruct (Zdigits2 (Z.pos p) - 53 - 0) as [|d|d] eqn:E; try lia.
    - exists p, 0. repeat split; try lia.
    - exists (Pos.iter xO p d), (Zdigits2 (Z.pos p) - 53).
      rewrite iter_xO_shiftl, Zdigits2_shiftl, Z.shiftl_mul_pow2 by lia.
      replace (- (Zdigits2 (Z.pos p) - 53)) with (Z.pos d) by lia.
      repeat split; lia. }
  destruct A as (mz & ez & S & Ez & Mz & Dz).
  exists mz, ez. unfold binary_round. rewrite S.
  split; [|split; [lia | exact Mz]].
  assert (F : fexp prec emax (Zdigits2 (Z.pos mz) + ez) - ez = 0)
    by (unfold fexp, SpecFloat.emin, prec, emax; lia).
  unfold binary_round_aux, shr_fexp. rewrite F.
  cbn [shr shr_record_of_loc shr_m loc_of_shr_record round_nearest_even].
  rewrite F. cbn [shr shr_record_of_loc shr_m].
  assert (L : (ez <=? emax - prec) = true)
    by (apply Z.leb_le; unfold emax, prec; lia).
  now rewrite L.
Qed.

(** The [float64] of an integer below [2 ^ 53] in magnitude is that
    integer exactly. *)
Lemma float64_of_int_exact (z : Z) :
  Z.abs z < 2 ^ 53 -> represents z (Prim2SF (float64_of_int z)).
Proof.
  intros Hz.
  rewrite Prim2SF_float64_of_int by (unfold in_int64; lia).
  destruct z as [|p|p]; cbn [binary_normalize]; [reflexivity| |].
  - destruct (binary_round_exact false p) as (m & e & -> & He & Hm);
      [lia|].
    cbn [represents]. repeat split; assumption.
  - destruct (binary_round_exact true p) as (m & e & -> & He & Hm);
      [lia|].
    cbn [represents]. repeat split; assumption.
Qed.

(** ** Strings *)

Lemma string_app_assoc (a b c : string) : (a ++ b) ++ c = a ++ b ++ c.
Proof. induction a as [|x a IH]; cbn; [reflexivity | now rewrite IH]. Qed.

Lemma Count_app (a b : string) (c : ascii) :
  strings.Count (a ++ b) c = (strings.Count a c + strings.Count b c)%nat.
Proof.
  induction a as [|x a IH]; cbn; [reflexivity|].
  destruct (Ascii.eqb x c); cbn; now rewrite IH.
Qed.

Lemma Split_length (s : string) (c : ascii) :
  List.length (strings.Split s c) = S (strings.Count s c).
Proof.
  induction s as [|x s IH]; cbn; [reflexivity|].
  destruct (Ascii.eqb x c); cbn; [now rewrite IH|].
  destruct (strings.Split s c); [discriminate IH | exact IH].
Qed.

Lemma Split_app_sep (a b : string) (c : ascii) :
  strings.Count a c = 0%nat ->
  strings.Split (a ++ String c b) c = a :: strings.Split b c.
Proof.
  induction a as [|x a IH]; cbn.
  - now rewrite Ascii.eqb_refl.
  - destruct (Ascii.eqb x c); [discriminate|].
    intros H. now rewrite IH.
Qed.

Lemma Split_plain (s : string) (c : ascii) :
  strings.Count s c = 0%nat -> strings.Split s c = [s].
Proof.
  induction s as [|x s IH]; cbn; [reflexivity|].
  destruct (Ascii.eqb x c); [discriminate|].
  intros H. now rewrite IH.
Qed.

Lemma Join_cons (f g : string) (rest : list string) (sep : string) :
  strings.Join (f :: g :: rest) sep = f ++ sep ++ strings.Join (g :: rest) sep.
Proof. reflexivity. Qed.

Lemma Split_Join (fs : list string) (c : ascii) :
  fs <> [] ->
  Forall (fun f => strings.Count f c = 0%nat) fs ->
  strings.Split (strings.Join fs (String c EmptyString)) c = fs.
Proof.
  induction fs as [|f fs IH]; [congruence|].
  intros _ H. inversion H as [|? ? Hf Hfs]; subst.
  destruct fs as [|g rest].
  - now apply Split_plain.
  - rewrite Join_cons.
    change (String c EmptyString ++ strings.Join (g :: rest) (String c EmptyString))
      with (String c (strings.Join (g :: rest) (String c EmptyString))).
    rewrite Split_app_sep by assumption.
    f_equal. apply IH; [discriminate | assumption].
Qed.

Lemma Count_Join (fs : list string) (sep : string) (c : ascii) :
  strings.Count (strings.Join fs sep) c
  = (sumCounts fs c + pred (List.length fs) * strings.Count sep c)%nat.
Proof.
  unfold sumCounts.
  induction fs as [|f fs IH]; [reflexivity|].
  destruct fs as [|g rest].
  - cbn. lia.
  - rewrite Join_cons, !Count_app, IH.
    cbn [map fold_right List.length pred]. lia.
Qed.

(** ** Renderings hold no separator *)

Lemma Count_string_of_uint (d : Decimal.uint) (c : ascii) :
  isSeparator c -> strings.Count (NilEmpty.string_of_uint d) c = 0%nat.
Proof.
  intros Hc. induction d; destruct Hc as [-> | ->]; cbn; auto.
Qed.

Lemma Count_FormatUint (n : uint64) (c : ascii) :
  isSeparator c -> strings.Count (strconv.FormatUint n) c = 0%nat.
Proof.
  intros Hc. unfold strconv.FormatUint, NilZero.string_of_uint.
  destruct (N.to_uint (Z.to_N n)) eqn:E;
    try (rewrite <- E; now apply Count_string_of_uint).
  destruct Hc as [-> | ->]; reflexivity.
Qed.

Lemma Count_FormatBool (b : bool) (c : ascii) :
  isSeparator c -> strings.Count (strconv.FormatBool b) c = 0%nat.
Proof. intros [-> | ->]; destruct b; reflexivity. Qed.

Lemma Count_Sprintf_d (n : Z) (c : ascii) :
  isSeparator c -> strings.Count (fmt.Sprintf_d n) c = 0%nat.
Proof.
  intros Hc. unfold fmt.Sprintf_d, NilZero.string_of_int.
  assert (U : forall d, strings.Count (NilZero.string_of_uint d) c = 0%nat).
  { intros d. unfold NilZero.string_of_uint.
    destruct d eqn:E; try (rewrite <- E; now apply Count_string_of_uint).
    destruct Hc as [-> | ->]; reflexivity. }
  destruct (Z.to_int n) as [d|d]; [apply U|].
  cbn [strings.Count]. rewrite U.
  destruct Hc as [-> | ->]; reflexivity.
Qed.

Lemma Count_pad3 (n : Z) (c : ascii) :
  isSeparator c -> strings.Count (fmt.pad3 n) c = 0%nat.
Proof.
  intros Hc. unfold fmt.pad3. cbv zeta.
  destruct (n <? 10); [|destruct (n <? 100)];
    rewrite ?Count_app, Count_FormatUint by assumption;
    destruct Hc as [-> | ->]; reflexivity.
Qed.

Lemma Count_fixed3 (neg : bool) (n : Z) (c : ascii) :
  isSeparator c -> strings.Count (fmt.fixed3 neg n) c = 0%nat.
Proof.
  intros Hc. unfold fmt.fixed3.
  rewrite !Count_app, Count_FormatUint, Count_pad3 by assumption.
  destruct Hc as [-> | ->]; destruct neg; reflexivity.
Qed.

Lemma Count_Sprintf_3f (f : float) (c : ascii) :
  isSeparator c -> strings.Count (fmt.Sprintf_3f f) c = 0%nat.
Proof.
  intros Hc. unfold fmt.Sprintf_3f.
  destruct (Prim2SF f) as [s|s| |s m e];
    try (now apply Count_fixed3);
    destruct Hc as [-> | ->]; try destruct s; reflexivity.
Qed.

(** ** Three fractional digits *)

Lemma allDigits_string_of_uint (d : Decimal.uint) :
  allDigits (NilEmpty.string_of_uint d) = true.
Proof. induction d; cbn; auto. Qed.

Lemma FormatUint_digits (n : uint64) :
  strconv.FormatUint n <> "" /\ allDigits (strconv.FormatUint n) = true.
Proof.
  unfold strconv.FormatUint, NilZero.string_of_uint.
  destruct (N.to_uint (Z.to_N n)); split; try discriminate;
    try reflexivity; cbn; apply allDigits_string_of_uint.
Qed.

Lemma pad3_shape (n : Z) :
  0 <= n < 1000 ->
  String.length (fmt.pad3 n) = 3%nat /\ allDigits (fmt.pad3 n) = true.
Proof.
  intros Hn.
  set (ok := fun k : nat =>
               (String.length (fmt.pad3 (Z.of_nat k)) =? 3)%nat
               && allDigits (fmt.pad3 (Z.of_nat k))).
  assert (A : forallb ok (seq 0 1000) = true) by (vm_compute; reflexivity).
  rewrite forallb_forall in A.
  specialize (A (Z.to_nat n)).
  rewrite in_seq in A. unfold ok in A.
  rewrite Z2Nat.id in A by lia.
  apply andb_prop in A; [|lia].
  destruct A as [L D]. apply Nat.eqb_eq in L. now split.
Qed.

Lemma fixed3_threeDecimals (neg : bool) (n : Z) :
  threeDecimals (fmt.fixed3 neg n).
Proof.
  exists (if neg then "-" else ""), (strconv.FormatUint (n / 1000)),
    (fmt.pad3 (n mod 1000)).
  destruct (FormatUint_digits (n / 1000)) as [N D].
  destruct (pad3_shape (n mod 1000)) as [L P];
    [apply Z.mod_pos_bound; lia|].
  split; [reflexivity|].
  split; [destruct neg; auto|]. now repeat split.
Qed.

Lemma Sprintf_3f_threeDecimals (f : float) :
  isFinite f = true -> threeDecimals (fmt.Sprintf_3f f).
Proof.
  unfold isFinite, fmt.Sprintf_3f.
  destruct (Prim2SF f); try discriminate; intros _;
    apply fixed3_threeDecimals.
Qed.
Section Properties.

Variable FilterError : string -> string.
Variable T : pgossip.Topics.
Variable Sprint_float64 : float -> string.

(** ** Connection attempts *)

Lemma Attempts_AddNewConnectionAttempt succeed err pm :
  Attempts (AddNewConnectionAttempt FilterError succeed err pm)
  = wrap_uint64 (Attempts pm + 1).
Proof. destruct pm as [], succeed, Attempted0; reflexivity. Qed.

Lemma Attempted_AddNewConnectionAttempt succeed err pm :
  Attempted (AddNewConnectionAttempt FilterError succeed err pm) = true.
Proof. destruct pm as [], succeed, Attempted0; reflexivity. Qed.

Lemma Attempts_recordAttempts calls : forall pm,
  in_uint64 (Attempts pm) ->
  Attempts (recordAttempts FilterError calls pm)
  = wrap_uint64 (Attempts pm + Z.of_nat (List.length calls)).
Proof.
  induction calls as [|call calls IH]; intros pm Hpm.
  - cbn [recordAttempts fold_left List.length Z.of_nat].
    rewrite Z.add_0_r. symmetry. now apply wrap_uint64_small.
  - change (recordAttempts FilterError (call :: calls) pm)
      with (recordAttempts FilterError calls
              (AddNewConnectionAttempt FilterError (fst call) (snd call) pm)).
    rewrite IH; rewrite Attempts_AddNewConnectionAttempt.
    + rewrite wrap_uint64_add_l. f_equal.
      cbn [List.length]. lia.
    + apply wrap_uint64_range.
Qed.

Lemma Attempted_recordAttempts calls : forall pm,
  Attempted (recordAttempts FilterError calls pm)
  = match calls with [] => Attempted pm | _ :: _ => true end.
Proof.
  induction calls as [|call calls IH]; intros pm; [reflexivity|].
  change (recordAttempts FilterError (call :: calls) pm)
    with (recordAttempts FilterError calls
            (AddNewConnectionAttempt FilterError (fst call) (snd call) pm)).
  rewrite IH. destruct calls; [|reflexivity].
  apply Attempted_AddNewConnectionAttempt.
Qed.

Lemma Attempted_store r m pm : Attempted (store r m pm) = Attempted pm.
Proof. destruct r, pm; reflexivity. Qed.

Lemma Attempted_applyOp op pm :
  Attempted (applyOp FilterError T op pm) = Attempted pm || isAttempt op.
Proof.
  destruct op as [ | |direction t|t|succeed err| |topicName|topic| | ];
    cbn [applyOp isAttempt]; rewrite ?orb_false_r, ?orb_true_r;
    try reflexivity.
  - apply Attempted_AddNewConnectionAttempt.
  - unfold CountMessage.
    destruct (GetMessageMetrics T pm topic) as [[r|] e]; cbn [fst];
      [apply Attempted_store | reflexivity].
Qed.

Lemma Attempted_applyOps ops : forall pm,
  Attempted (applyOps FilterError T ops pm)
  = Attempted pm || existsb isAttempt ops.
Proof.
  induction ops as [|op ops IH]; intros pm.
  - cbn. now rewrite orb_false_r.
  - change (applyOps FilterError T (op :: ops) pm)
      with (applyOps FilterError T ops (applyOp FilterError T op pm)).
    rewrite IH, Attempted_applyOp. cbn [existsb].
    now rewrite orb_assoc.
Qed.

(** C3 (as amended).  A call [AddNewConnectionAttempt(succeed, err)] adds 1
    to [Attempts] (a [uint64]) and leaves [Attempted] true.  When [succeed]
    is true it sets [Succeed] to true and [Error] to the sentinel ["None"];
    when it is false it sets [Error] to [FilterError(err)] and leaves
    [Succeed] as it was, so an earlier success is not cleared. *)
Theorem C3_connection_attempt succeed err pm :
  let pm' := AddNewConnectionAttempt FilterError succeed err pm in
  Attempts pm' = wrap_uint64 (Attempts pm + 1)
  /\ Attempted pm' = true
  /\ (if succeed
      then Succeed pm' = true /\ Error pm' = "None"
      else Error pm' = FilterError err /\ Succeed pm' = Succeed pm).
Proof.
  cbv zeta. split; [apply Attempts_AddNewConnectionAttempt|].
  split; [apply Attempted_AddNewConnectionAttempt|].
  destruct pm as [], succeed, Attempted0; split; reflexivity.
Qed.

(** C4.  On a freshly created peer, [Attempted] is false and, after [N]
    connection attempts, [Attempts] is [N] and [Attempted] is true from the
    first attempt on.  Under any sequence of calls on a peer, [Attempted]
    afterwards is [Attempted] before or-ed with "some call was a connection
    attempt": once true it stays true, and [ResetDynamicMetrics] leaves it
    as it is while zeroing [Attempts]. *)
Theorem C4_attempts_counted peerId calls ops pm
    (HN : Z.of_nat (List.length calls) < 2 ^ 64) :
  let fresh := NewPeer peerId in
  Attempted fresh = false
  /\ Attempts (recordAttempts FilterError calls fresh)
     = Z.of_nat (List.length calls)
  /\ Attempted (recordAttempts FilterError calls fresh)
     = match calls with [] => false | _ :: _ => true end
  /\ Attempted (applyOps FilterError T ops pm)
     = Attempted pm || existsb isAttempt ops
  /\ (Attempted pm = true ->
      Attempted (applyOps FilterError T ops pm) = true)
  /\ Attempted (ResetDynamicMetrics pm) = Attempted pm
  /\ Attempts (ResetDynamicMetrics pm) = 0.
Proof.
  cbv zeta. split; [reflexivity|]. split.
  { rewrite Attempts_recordAttempts by (cbn; unfold in_uint64; lia).
    cbn [NewPeer Attempts]. apply wrap_uint64_small.
    unfold in_uint64. lia. }
  split; [apply Attempted_recordAttempts|].
  split; [apply Attempted_applyOps|].
  split; [intros Hpm; now rewrite Attempted_applyOps, Hpm|].
  destruct pm; split; reflexivity.
Qed.

(** ** The window reset *)

(** C7.  [ResetDynamicMetrics] sets [Attempts] and the five topic counters
    to zero and leaves every other field of the peer as it was. *)
Theorem C7_reset_frame pm :
  let pm' := ResetDynamicMetrics pm in
  (Attempts pm' = 0
   /\ BeaconBlock pm' = NewMessageMetrics
   /\ BeaconAggregateProof pm' = NewMessageMetrics
   /\ VoluntaryExit pm' = NewMessageMetrics
   /\ ProposerSlashing pm' = NewMessageMetrics
   /\ AttesterSlashing pm' = NewMessageMetrics
   /\ Count NewMessageMetrics = 0)
  /\ (PeerId pm' = PeerId pm /\ NodeId pm' = NodeId pm
      /\ ConnectionTimes pm' = ConnectionTimes pm
      /\ DisconnectionTimes pm' = DisconnectionTimes pm)
  /\ (UserAgent pm' = UserAgent pm /\ ClientName pm' = ClientName pm
      /\ ClientOS pm' = ClientOS pm /\ ClientVersion pm' = ClientVersion pm
      /\ Pubkey pm' = Pubkey pm /\ Addrs pm' = Addrs pm /\ Ip pm' = Ip pm
      /\ Country pm' = Country pm /\ City pm' = City pm
      /\ Latency pm' = Latency pm
      /\ ConnectedDirection pm' = ConnectedDirection pm
      /\ IsConnected pm' = IsConnected pm /\ Attempted pm' = Attempted pm
      /\ Succeed pm' = Succeed pm /\ Error pm' = Error pm
      /\ MetadataRequest pm' = MetadataRequest pm
      /\ MetadataSucceed pm' = MetadataSucceed pm
      /\ LastExport pm' = LastExport pm).
Proof. destruct pm; cbv zeta; repeat split. Qed.

(** ** Topic counters *)

Lemma topics_distinct :
  NoDup (pgossip.all T) ->
  forall r r', topicOf T r = topicOf T r' -> r = r'.
Proof.
  unfold pgossip.all. intros H.
  repeat match goal with
         | H : NoDup (_ :: _) |- _ =>
             apply NoDup_cons_iff in H; cbn [In] in H; destruct H as [? H]
         end.
  intros r r' E.
  destruct r, r'; cbn [topicOf] in E; try reflexivity;
    exfalso; intuition congruence.
Qed.

Lemma GetMessageMetrics_known pm r :
  NoDup (pgossip.all T) ->
  GetMessageMetrics T pm (topicOf T r) = (Some r, None).
Proof.
  intros H. pose proof (topics_distinct H) as D.
  unfold GetMessageMetrics.
  change (pgossip.BeaconBlock T) with (topicOf T RefBeaconBlock).
  change (pgossip.BeaconAggregateProof T)
    with (topicOf T RefBeaconAggregateProof).
  change (pgossip.VoluntaryExit T) with (topicOf T RefVoluntaryExit).
  change (pgossip.ProposerSlashing T) with (topicOf T RefProposerSlashing).
  change (pgossip.AttesterSlashing T) with (topicOf T RefAttesterSlashing).
  repeat match goal with
         | |- context [String.eqb (topicOf T r) (topicOf T ?r')] =>
             destruct (String.eqb_spec (topicOf T r) (topicOf T r')) as [Heq|?];
             [apply D in Heq; now subst r|]
         end.
  destruct r; congruence.
Qed.

Lemma GetMessageMetrics_unknown pm topicName :
  ~ In topicName (pgossip.all T) ->
  GetMessageMetrics T pm topicName
  = (None, Some (errors.New ("unknown topic name: " ++ topicName))).
Proof.
  unfold pgossip.all. cbn [In]. intros H.
  unfold GetMessageMetrics.
  repeat match goal with
         | |- context [String.eqb topicName ?t] =>
             destruct (String.eqb_spec topicName t) as [Heq|?];
             [exfalso; intuition congruence|]
         end.
  reflexivity.
Qed.

Lemma CountMessage_unknown pm topic :
  ~ In topic (pgossip.all T) ->
  CountMessage T topic pm
  = (pm, Some (errors.New ("unknown topic name: " ++ topic))).
Proof.
  intros H. unfold CountMessage.
  now rewrite GetMessageMetrics_unknown.
Qed.

Lemma load_store_same r m pm : load r (store r m pm) = m.
Proof. destruct r; reflexivity. Qed.

Lemma load_store_other r r' m pm :
  r' <> r -> load r' (store r m pm) = load r' pm.
Proof. destruct r, r'; intros H; try reflexivity; congruence. Qed.

Lemma GetAllMessagesCount_sum pm :
  GetAllMessagesCount pm
  = wrap_uint64
      (Count (BeaconBlock pm) + Count (BeaconAggregateProof pm)
       + Count (VoluntaryExit pm) + Count (ProposerSlashing pm)
       + Count (AttesterSlashing pm)).
Proof.
  unfold GetAllMessagesCount.
  set (a := Count (BeaconBlock pm)). set (b := Count (BeaconAggregateProof pm)).
  set (c := Count (VoluntaryExit pm)). set (d := Count (AttesterSlashing pm)).
  set (e := Count (ProposerSlashing pm)).
  rewrite (wrap_uint64_add_l (a + b) c), (wrap_uint64_add_l (a + b + c) d),
    (wrap_uint64_add_l (a + b + c + d) e).
  apply f_equal. lia.
Qed.

(** C5.  For a topic name outside the five topic names,
    [GetMessageMetrics] returns no counter and the error
    "unknown topic name: <name>"; the call assigns nothing, so the peer,
    its five counters and [GetAllMessagesCount] are as before. *)
Theorem C5_unknown_topic pm topicName
    (Hunknown : ~ In topicName (pgossip.all T)) :
  GetMessageMetrics T pm topicName
  = (None, Some (errors.New ("unknown topic name: " ++ topicName)))
  /\ let pm' := applyOp FilterError T (OpGetMessageMetrics topicName) pm in
     pm' = pm
     /\ (forall r, load r pm' = load r pm)
     /\ GetAllMessagesCount pm' = GetAllMessagesCount pm.
Proof.
  split; [now apply GetMessageMetrics_unknown|].
  cbv zeta. cbn [applyOp]. repeat split.
Qed.

(** C6.  With five distinct topic names, the name of each of the five
    topics resolves to its own counter, [CountMessage] on that name adds 1
    to that counter and leaves the other four as they were, and
    [GetAllMessagesCount] is the sum of the five counters (a [uint64]
    sum, which is the plain sum while that fits 64 bits). *)
Theorem C6_count_message pm r (Hdistinct : NoDup (pgossip.all T)) :
  GetMessageMetrics T pm (topicOf T r) = (Some r, None)
  /\ (let pm' := fst (CountMessage T (topicOf T r) pm) in
      snd (CountMessage T (topicOf T r) pm) = None
      /\ Count (load r pm') = wrap_uint64 (Count (load r pm) + 1)
      /\ (forall r', r' <> r -> load r' pm' = load r' pm))
  /\ GetAllMessagesCount pm
     = wrap_uint64
         (Count (BeaconBlock pm) + Count (BeaconAggregateProof pm)
          + Count (VoluntaryExit pm) + Count (ProposerSlashing pm)
          + Count (AttesterSlashing pm))
  /\ (in_uint64
        (Count (BeaconBlock pm) + Count (BeaconAggregateProof pm)
         + Count (VoluntaryExit pm) + Count (ProposerSlashing pm)
         + Count (AttesterSlashing pm)) ->
      GetAllMessagesCount pm
      = Count (BeaconBlock pm) + Count (BeaconAggregateProof pm)
        + Count (VoluntaryExit pm) + Count (ProposerSlashing pm)
        + Count (AttesterSlashing pm)).
Proof.
  split; [now apply GetMessageMetrics_known|].
  split.
  { cbv zeta. unfold CountMessage.
    rewrite GetMessageMetrics_known by assumption. cbn [fst snd].
    split; [reflexivity|].
    split; [now rewrite load_store_same|].
    intros r' Hr'. now apply load_store_other. }
  split; [apply GetAllMessagesCount_sum|].
  intros Hsum. rewrite GetAllMessagesCount_sum.
  now apply wrap_uint64_small.
Qed.

(** ** Connected time *)

Lemma Milliseconds_truncates (d : time.Duration) :
  exists r, d = Millisecond * time.Milliseconds d + r
            /\ (0 <= d -> 0 <= r < Millisecond)
            /\ (d <= 0 -> - Millisecond < r <= 0).
Proof.
  unfold time.Milliseconds, Millisecond.
  exists (Z.rem d 1000000). split; [apply Z.quot_rem'|]. split; intros H.
  - apply Z.rem_bound_pos; lia.
  - apply Z.rem_bound_pos_neg; lia.
Qed.

Lemma Sub_cases (t u : time.Time) :
  (time.Sub t u = t - u /\ - 2 ^ 63 <= t - u <= 2 ^ 63 - 1)
  \/ (time.Sub t u = - 2 ^ 63 /\ t - u < - 2 ^ 63)
  \/ (time.Sub t u = 2 ^ 63 - 1 /\ 2 ^ 63 - 1 < t - u).
Proof.
  unfold time.Sub, time.minDuration, time.maxDuration. cbv zeta.
  destruct (Z.ltb_spec (t - u) (- 2 ^ 63)); [lia|].
  destruct (Z.ltb_spec (2 ^ 63 - 1) (t - u)); lia.
Qed.

Lemma singleConnectionTime_nonneg (c d : time.Time) :
  (0 <=? singleConnectionTime c d) = true <-> - Millisecond < d - c.
Proof.
  unfold singleConnectionTime. rewrite Z.leb_le.
  destruct (Milliseconds_truncates (time.Sub d c)) as (r & E & Hp & Hn).
  unfold Millisecond in *.
  destruct (Sub_cases d c) as [[S B]|[[S B]|[S B]]]; rewrite S in *; lia.
Qed.

Lemma singleConnectionTime_close (c d : time.Time) :
  Z.abs (d - c) < Millisecond -> singleConnectionTime c d = 0.
Proof.
  unfold singleConnectionTime. intros H.
  destruct (Milliseconds_truncates (time.Sub d c)) as (r & E & Hp & Hn).
  unfold Millisecond in *.
  destruct (Sub_cases d c) as [[S B]|[[S B]|[S B]]]; rewrite S in *; lia.
Qed.

Lemma singleConnectionTime_toward_zero (c d : time.Time) :
  Z.abs (singleConnectionTime c d) * Millisecond <= Z.abs (time.Sub d c)
    < (Z.abs (singleConnectionTime c d) + 1) * Millisecond
  /\ 0 <= singleConnectionTime c d * time.Sub d c.
Proof.
  unfold singleConnectionTime.
  destruct (Milliseconds_truncates (time.Sub d c)) as (r & E & Hp & Hn).
  unfold Millisecond in *. nia.
Qed.

Lemma scanDisconnections_firstMatch c discTimes total :
  scanDisconnections c discTimes total
  = match firstMatch c discTimes with
    | Some d => wrap_int64 (total + singleConnectionTime c d)
    | None => total
    end.
Proof.
  unfold firstMatch.
  induction discTimes as [|d rest IH]; [reflexivity|].
  cbn [scanDisconnections find].
  fold (singleConnectionTime c d).
  destruct (0 <=? singleConnectionTime c d); [reflexivity | exact IH].
Qed.

Lemma scanDisconnections_range c discTimes total :
  in_int64 total -> in_int64 (scanDisconnections c discTimes total).
Proof.
  intros H. rewrite scanDisconnections_firstMatch.
  destruct (firstMatch c discTimes); [apply wrap_int64_range | exact H].
Qed.

Lemma scanDisconnections_contribution c discTimes total :
  in_int64 total ->
  scanDisconnections c discTimes total
  = wrap_int64 (total + contribution c discTimes).
Proof.
  intros H. rewrite scanDisconnections_firstMatch. unfold contribution.
  destruct (firstMatch c discTimes); [reflexivity|].
  rewrite Z.add_0_r. symmetry. now apply wrap_int64_small.
Qed.

Lemma fold_scan_contributions discTimes conTimes : forall total,
  in_int64 total ->
  fold_left
    (fun total conTime => scanDisconnections conTime discTimes total)
    conTimes total
  = wrap_int64 (total + contributions conTimes discTimes).
Proof.
  induction conTimes as [|c rest IH]; intros total H.
  - cbn. rewrite Z.add_0_r. symmetry. now apply wrap_int64_small.
  - cbn [fold_left]. rewrite IH by now apply scanDisconnections_range.
    rewrite scanDisconnections_contribution by assumption.
    rewrite wrap_int64_add_l. f_equal.
    unfold contributions. cbn [map fold_right]. lia.
Qed.

Lemma totalConnectedTime_contributions pm :
  totalConnectedTime pm
  = wrap_int64 (contributions (ConnectionTimes pm) (DisconnectionTimes pm)).
Proof.
  unfold totalConnectedTime.
  rewrite fold_scan_contributions by (unfold in_int64; lia).
  reflexivity.
Qed.

Lemma totalConnectedTime_range pm : in_int64 (totalConnectedTime pm).
Proof. rewrite totalConnectedTime_contributions. apply wrap_int64_range. Qed.

Lemma GetConnectedTime_finite pm : isFinite (GetConnectedTime pm) = true.
Proof.
  unfold GetConnectedTime.
  apply float64_of_int_div_finite, totalConnectedTime_range.
Qed.

(** Where no disconnection instant precedes a connection instant by less
    than a millisecond, the pairing is the documented one. *)
Lemma firstMatch_documented c discTimes :
  (forall d, In d discTimes -> d - c <= - Millisecond \/ 0 <= d - c) ->
  firstMatch c discTimes = documentedMatch c discTimes.
Proof.
  unfold firstMatch, documentedMatch. intros H.
  induction discTimes as [|d rest IH]; [reflexivity|].
  cbn [find].
  assert (E : (0 <=? singleConnectionTime c d) = (0 <=? d - c)).
  { pose proof (singleConnectionTime_nonneg c d) as S.
    specialize (H d (or_introl eq_refl)).
    destruct (0 <=? singleConnectionTime c d).
    - symmetry. apply Z.leb_le. destruct S as [S _].
      specialize (S eq_refl). lia.
    - symmetry. apply Z.leb_gt.
      destruct (Z.lt_ge_cases (d - c) 0) as [|G]; [assumption|].
      destruct S as [_ S]. unfold Millisecond in S.
      assert (false = true) by (apply S; lia). discriminate. }
  rewrite E. destruct (0 <=? d - c); [reflexivity|].
  apply IH. intros d' Hd'. apply H. now right.
Qed.

Lemma contributions_documented conTimes discTimes :
  (forall c d, In c conTimes -> In d discTimes ->
               d - c <= - Millisecond \/ 0 <= d - c) ->
  contributions conTimes discTimes = documentedTotal conTimes discTimes.
Proof.
  unfold contributions, documentedTotal. intros H.
  induction conTimes as [|c rest IH]; [reflexivity|].
  cbn [map fold_right]. rewrite IH by (intros; apply H; [now right|easy]).
  f_equal. unfold contribution, documentedContribution.
  rewrite firstMatch_documented by (intros; apply H; [now left|easy]).
  reflexivity.
Qed.

(** C1 (as amended).  [GetConnectedTime] pairs each connection instant
    [c], in recorded order, with the first disconnection instant [d], in
    recorded order, whose distance [d - c] in whole milliseconds
    (truncated toward zero) is non-negative, that is with [d - c] above
    minus one millisecond; the pair contributes that number of
    milliseconds, the scan for [c] stops there, and every [c] scans all
    the disconnection instants, so one [d] can serve several [c].  The
    result is the [int64] total over 60000.  For connections at 0 ms and
    10 ms and disconnections at 5 ms and 8 ms, the first contributes 5,
    the second 0, and the result is 5/60000 minutes.  Where no
    disconnection instant precedes a connection instant by less than a
    millisecond, the pairing is the documented one: the first [d] with
    [d - c] non-negative. *)
Theorem C1_first_match pm :
  totalConnectedTime pm
  = wrap_int64 (contributions (ConnectionTimes pm) (DisconnectionTimes pm))
  /\ GetConnectedTime pm
     = (float64_of_int (totalConnectedTime pm) / 60000)%float
  /\ (forall c d,
        (0 <=? singleConnectionTime c d) = true <-> - Millisecond < d - c)
  /\ (ConnectionTimes peerTwoSessions = [0; 10 * Millisecond]
      /\ DisconnectionTimes peerTwoSessions
         = [5 * Millisecond; 8 * Millisecond]
      /\ contribution 0 (DisconnectionTimes peerTwoSessions) = 5
      /\ contribution (10 * Millisecond)
           (DisconnectionTimes peerTwoSessions) = 0
      /\ totalConnectedTime peerTwoSessions = 5
      /\ GetConnectedTime peerTwoSessions = (5 / 60000)%float)
  /\ ((forall c d,
         In c (ConnectionTimes pm) -> In d (DisconnectionTimes pm) ->
         d - c <= - Millisecond \/ 0 <= d - c) ->
      totalConnectedTime pm
      = wrap_int64
          (documentedTotal (ConnectionTimes pm) (DisconnectionTimes pm))).
Proof.
  split; [apply totalConnectedTime_contributions|].
  split; [reflexivity|].
  split; [apply singleConnectionTime_nonneg|].
  split; [repeat split; vm_compute; reflexivity|].
  intros H. rewrite totalConnectedTime_contributions.
  now rewrite contributions_documented.
Qed.

Lemma firstMatch_matches c discTimes d :
  firstMatch c discTimes = Some d ->
  In d discTimes /\ 0 <= singleConnectionTime c d.
Proof.
  unfold firstMatch. intros H. apply find_some in H.
  destruct H as [I M]. split; [exact I | now apply Z.leb_le].
Qed.

Lemma GetConnectedTime_quotient pm :
  Prim2SF (GetConnectedTime pm)
  = SFdiv prec emax
      (binary_normalize prec emax (totalConnectedTime pm) 0 false)
      (binary_normalize prec emax 60000 0 false).
Proof.
  unfold GetConnectedTime.
  rewrite div_spec, Prim2SF_float64_of_int
    by apply totalConnectedTime_range.
  unfold SF64div. apply f_equal. vm_compute. reflexivity.
Qed.

Lemma singleConnectionTime_in_range (c d : time.Time) :
  - 2 ^ 63 <= d - c < 2 ^ 63 ->
  time.Sub d c = d - c
  /\ singleConnectionTime c d = (d - c) ÷ Millisecond.
Proof.
  intros H. unfold singleConnectionTime, time.Milliseconds, Millisecond.
  destruct (Sub_cases d c) as [[S B]|[[S B]|[S B]]]; rewrite S;
    first [lia | split; reflexivity].
Qed.

(** C9.  The scale of [GetConnectedTime] is milliseconds to minutes.  A
    matched pair contributes its distance [d - c] (a [Duration], so
    brought within 64 bits) divided by 1000000 and truncated toward zero
    to whole milliseconds; the contributions are added in [int64]; the
    result is the binary64 quotient by 60000 of the [float64] of that
    total, a finite number, the conversion being exact for totals below
    [2 ^ 53].  A session of 90.000999999 s counts 90000 ms and returns
    1.5.  A disconnection instant less than a millisecond away from a
    connection instant is matched with it and contributes 0. *)
Theorem C9_millisecond_scale pm :
  GetConnectedTime pm
  = (float64_of_int
       (wrap_int64
          (contributions (ConnectionTimes pm) (DisconnectionTimes pm)))
     / 60000)%float
  /\ Prim2SF (GetConnectedTime pm)
     = SFdiv prec emax
         (binary_normalize prec emax
            (wrap_int64
               (contributions (ConnectionTimes pm) (DisconnectionTimes pm)))
            0 false)
         (binary_normalize prec emax 60000 0 false)
  /\ (forall z, Z.abs z < 2 ^ 53 ->
                represents z (Prim2SF (float64_of_int z)))
  /\ (forall c d,
        singleConnectionTime c d
        = Z.max (- 2 ^ 63) (Z.min (2 ^ 63 - 1) (d - c)) ÷ 1000000)
  /\ (forall c d,
        - 2 ^ 63 <= d - c < 2 ^ 63 ->
        singleConnectionTime c d = (d - c) ÷ 1000000
        /\ Z.abs (singleConnectionTime c d) * 1000000 <= Z.abs (d - c)
           < (Z.abs (singleConnectionTime c d) + 1) * 1000000
        /\ 0 <= singleConnectionTime c d * (d - c))
  /\ (forall c discTimes d,
        firstMatch c discTimes = Some d ->
        contribution c discTimes = singleConnectionTime c d
        /\ 0 <= singleConnectionTime c d)
  /\ (forall c d,
        singleConnectionTime c d = time.Sub d c ÷ Millisecond
        /\ Z.abs (singleConnectionTime c d) * Millisecond
           <= Z.abs (time.Sub d c)
           < (Z.abs (singleConnectionTime c d) + 1) * Millisecond
        /\ 0 <= singleConnectionTime c d * time.Sub d c)
  /\ isFinite (GetConnectedTime pm) = true
  /\ (forall c d,
        Z.abs (d - c) < Millisecond ->
        singleConnectionTime c d = 0
        /\ forall rest,
             firstMatch c (d :: rest) = Some d
             /\ contribution c (d :: rest) = 0
             /\ forall total,
                  in_int64 total ->
                  scanDisconnections c (d :: rest) total = total)
  /\ (ConnectionTimes peerNinetySeconds = [0]
      /\ DisconnectionTimes peerNinetySeconds = [90000999999]
      /\ totalConnectedTime peerNinetySeconds = 90000
      /\ GetConnectedTime peerNinetySeconds = 1.5%float
      /\ fmt.Sprintf_3f (GetConnectedTime peerNinetySeconds) = "1.500").
Proof.
  split.
  { unfold GetConnectedTime. now rewrite totalConnectedTime_contributions. }
  split.
  { rewrite GetConnectedTime_quotient.
    now rewrite totalConnectedTime_contributions. }
  split; [exact float64_of_int_exact|].
  split.
  { intros c d. unfold singleConnectionTime, time.Milliseconds.
    apply (f_equal (fun x => x ÷ 1000000)).
    destruct (Sub_cases d c) as [[S B]|[[S B]|[S B]]]; rewrite S; lia. }
  split.
  { intros c d R.
    destruct (singleConnectionTime_in_range c d R) as [S Q].
    pose proof (singleConnectionTime_toward_zero c d) as TZ.
    rewrite S in TZ. unfold Millisecond in *. now split. }
  split.
  { intros c discTimes d M. unfold contribution. rewrite M.
    split; [reflexivity | now apply (firstMatch_matches c discTimes)]. }
  split.
  { intros c d. split; [reflexivity|].
    apply singleConnectionTime_toward_zero. }
  split; [apply GetConnectedTime_finite|].
  split.
  { intros c d Hclose.
    pose proof (singleConnectionTime_close c d Hclose) as Z0.
    split; [exact Z0|]. intros rest.
    assert (F : firstMatch c (d :: rest) = Some d).
    { unfold firstMatch. cbn [find]. now rewrite Z0. }
    split; [exact F|].
    split; [unfold contribution; now rewrite F|].
    intros total Htotal.
    rewrite scanDisconnections_firstMatch, F, Z0, Z.add_0_r.
    now apply wrap_int64_small. }
  repeat split; vm_compute; reflexivity.
Qed.

(** ** The export line *)

Lemma ToCsvLine_Join pm :
  ToCsvLine Sprint_float64 pm
  = strings.Join (csvFields Sprint_float64 pm) "," ++ newline.
Proof.
  unfold ToCsvLine, csvFields, strconv.FormatBool.
  cbn [strings.Join]. now rewrite !string_app_assoc.
Qed.

Lemma csvFields_length pm :
  List.length (csvFields Sprint_float64 pm) = 27%nat.
Proof. reflexivity. Qed.

Section PlainRenderings.

(** [fmt.Sprint] writes a [float64] with digits, a sign, a point and an
    exponent, or as [NaN] or [Inf]: never with a comma or a line feed. *)
Hypothesis Sprint_float64_plain :
  forall f c, isSeparator c -> strings.Count (Sprint_float64 f) c = 0%nat.

Lemma sumCounts_csvFields pm c :
  isSeparator c ->
  sumCounts (csvFields Sprint_float64 pm) c = countInStringFields c pm.
Proof.
  intros Hc. unfold countInStringFields, sumCounts, csvFields, stringFields.
  cbv zeta beta. cbn [map fold_right].
  fold (strconv.FormatBool (MetadataRequest pm)).
  fold (strconv.FormatBool (MetadataSucceed pm)).
  fold (strconv.FormatBool (Attempted pm)).
  fold (strconv.FormatBool (Succeed pm)).
  fold (strconv.FormatBool (IsConnected pm)).
  rewrite !Count_FormatBool, !Count_FormatUint, !Count_Sprintf_d,
    Count_Sprintf_3f, Sprint_float64_plain by assumption.
  lia.
Qed.

Lemma Count_ToCsvLine_comma pm :
  strings.Count (ToCsvLine Sprint_float64 pm) comma
  = (26 + countInStringFields comma pm)%nat.
Proof.
  rewrite ToCsvLine_Join, Count_app, Count_Join, csvFields_length.
  rewrite sumCounts_csvFields by now left.
  cbn. lia.
Qed.

Lemma Count_ToCsvLine_lf pm :
  strings.Count (ToCsvLine Sprint_float64 pm) lf
  = (1 + countInStringFields lf pm)%nat.
Proof.
  rewrite ToCsvLine_Join, Count_app, Count_Join, csvFields_length.
  rewrite sumCounts_csvFields by now right.
  cbn. lia.
Qed.

Lemma sumCounts_zero fs c :
  sumCounts fs c = 0%nat -> Forall (fun f => strings.Count f c = 0%nat) fs.
Proof.
  unfold sumCounts. induction fs as [|f fs IH]; cbn [map fold_right];
    intros H; constructor; [lia | apply IH; lia].
Qed.

(** C10.  The export line copies the string columns as they are, with no
    quoting and no escaping: it is the plain concatenation of the 27
    renderings, joined by single commas.  Splitting it at the commas
    gives 27 + k fields, [k] the number of commas in the string columns,
    so 27 fields exactly when they hold none; and the line holds one line
    feed more than the string columns do. *)
Theorem C10_no_escaping pm :
  ToCsvLine Sprint_float64 pm
  = strings.Join (csvFields Sprint_float64 pm) "," ++ newline
  /\ Forall (fun s => In s (csvFields Sprint_float64 pm)) (stringFields pm)
  /\ List.length (strings.Split (ToCsvLine Sprint_float64 pm) comma)
     = (27 + countInStringFields comma pm)%nat
  /\ (List.length (strings.Split (ToCsvLine Sprint_float64 pm) comma)
      = 27%nat <-> countInStringFields comma pm = 0%nat)
  /\ strings.Count (ToCsvLine Sprint_float64 pm) lf
     = (1 + countInStringFields lf pm)%nat.
Proof.
  assert (L : List.length (strings.Split (ToCsvLine Sprint_float64 pm) comma)
              = (27 + countInStringFields comma pm)%nat).
  { rewrite Split_length, Count_ToCsvLine_comma. reflexivity. }
  split; [apply ToCsvLine_Join|].
  split.
  { unfold stringFields, csvFields.
    repeat (constructor; [cbn [In]; tauto|]). constructor. }
  split; [exact L|].
  split; [rewrite L; lia|].
  apply Count_ToCsvLine_lf.
Qed.

End PlainRenderings.

(** C2 (as amended).  For every peer the export line is the 27 columns,
    in the documented order, joined by commas and ended by a line feed;
    booleans are written [true] or [false], and the connected time is
    written with three fractional digits.  For a peer whose string
    columns hold no comma, splitting the line at the commas gives back
    exactly these 27 columns. *)
Theorem C2_csv_line pm :
  ToCsvLine Sprint_float64 pm
  = strings.Join (csvFields Sprint_float64 pm) "," ++ newline
  /\ List.length (csvFields Sprint_float64 pm) = 27%nat
  /\ (forall b, strconv.FormatBool b = if b then "true" else "false")
  /\ nth 20 (csvFields Sprint_float64 pm) ""
     = fmt.Sprintf_3f (GetConnectedTime pm)
  /\ threeDecimals (fmt.Sprintf_3f (GetConnectedTime pm))
  /\ ((forall f c, isSeparator c ->
                   strings.Count (Sprint_float64 f) c = 0%nat) ->
      countInStringFields comma pm = 0%nat ->
      strings.Split (strings.Join (csvFields Sprint_float64 pm) ",") comma
      = csvFields Sprint_float64 pm
      /\ List.length (strings.Split (ToCsvLine Sprint_float64 pm) comma)
         = 27%nat).
Proof.
  split; [apply ToCsvLine_Join|].
  split; [reflexivity|].
  split; [reflexivity|].
  split; [reflexivity|].
  split; [apply Sprintf_3f_threeDecimals, GetConnectedTime_finite|].
  intros Hsprint Hplain. split.
  - apply Split_Join; [discriminate|].
    apply sumCounts_zero.
    rewrite (sumCounts_csvFields Hsprint) by now left.
    exact Hplain.
  - rewrite Split_length, (Count_ToCsvLine_comma Hsprint), Hplain.
    reflexivity.
Qed.

End Properties.

(** * The properties at the sample data *)

Lemma Sprint_zero_plain :
  forall f c, isSeparator c -> strings.Count (Sprint_zero f) c = 0%nat.
Proof. intros f c [-> | ->]; reflexivity. Qed.

Lemma sampleTopics_distinct : NoDup (pgossip.all sampleTopics).
Proof.
  unfold pgossip.all, sampleTopics; cbn.
  repeat (constructor; [cbn [In]; intuition discriminate|]). constructor.
Qed.

(** The second connection, at 10.5 ms, comes half a millisecond after the
    first disconnection, at 10 ms.  The documented pairing gives it the
    disconnection at 20 ms, for 10 + 9 = 19 ms in all; [GetConnectedTime]
    gives it the disconnection at 10 ms, whose distance truncates to 0 ms,
    for 10 ms in all. *)
Lemma C1_counterexample :
  ConnectionTimes peerQuickReconnect = [0; 10500000]
  /\ DisconnectionTimes peerQuickReconnect = [10000000; 20000000]
  /\ documentedMatch 10500000 [10000000; 20000000] = Some 20000000
  /\ firstMatch 10500000 [10000000; 20000000] = Some 10000000
  /\ documentedTotal (ConnectionTimes peerQuickReconnect)
       (DisconnectionTimes peerQuickReconnect) = 19
  /\ totalConnectedTime peerQuickReconnect = 10
  /\ totalConnectedTime peerQuickReconnect
     <> documentedTotal (ConnectionTimes peerQuickReconnect)
          (DisconnectionTimes peerQuickReconnect)
  /\ GetConnectedTime peerQuickReconnect = (10 / 60000)%float.
Proof.
  repeat split; try (vm_compute; reflexivity). vm_compute. discriminate.
Qed.

(** A comma in the user agent gives a line of 28 comma-separated fields,
    whose fourth is the tail of the user agent, not the client name. *)
Lemma C2_counterexample :
  UserAgent peerCommaAgent = "teku/v21.1,linux"
  /\ ToCsvLine Sprint_zero peerCommaAgent
     = "16Uiu2HAm,a1b2,teku/v21.1,linux,teku,v21.1,04ab,"
       ++ "/ip4/10.0.0.1/tcp/9000,10.0.0.1,ES,Barcelona,"
       ++ "true,true,true,true,false,1,None,0,1,1,0.100,3,4,0,0,1,8"
       ++ newline
  /\ List.length
       (strings.Split (ToCsvLine Sprint_zero peerCommaAgent) comma)
     = 28%nat
  /\ List.length
       (strings.Split (ToCsvLine Sprint_zero peerCommaAgent) comma)
     <> 27%nat
  /\ nth 3 (strings.Split (ToCsvLine Sprint_zero peerCommaAgent) comma) ""
     = "linux"
  /\ ClientName peerCommaAgent = "teku".
Proof. repeat split; try (vm_compute; reflexivity). vm_compute. discriminate. Qed.

(** After a successful attempt the error text is ["None"], with a capital,
    which is not the string ["none"]. *)
Lemma C3_counterexample :
  Error (AddNewConnectionAttempt beforeColon true "" (NewPeer "16Uiu2HAm"))
  = "None"
  /\ Error (AddNewConnectionAttempt beforeColon true "" (NewPeer "16Uiu2HAm"))
     <> "none".
Proof. split; [reflexivity | vm_compute; discriminate]. Qed.

(** C1 at the peer with sessions at 0 ms and 10 ms: no disconnection
    precedes a connection by less than a millisecond. *)
Lemma C1_first_match_witness :
  (forall c d,
     In c (ConnectionTimes peerTwoSessions) ->
     In d (DisconnectionTimes peerTwoSessions) ->
     d - c <= - Millisecond \/ 0 <= d - c)
  /\ totalConnectedTime peerTwoSessions
     = wrap_int64
         (documentedTotal (ConnectionTimes peerTwoSessions)
            (DisconnectionTimes peerTwoSessions)).
Proof.
  assert (H : forall c d,
            In c (ConnectionTimes peerTwoSessions) ->
            In d (DisconnectionTimes peerTwoSessions) ->
            d - c <= - Millisecond \/ 0 <= d - c).
  { intros c d [<-|[<-|[]]] [<-|[<-|[]]]; vm_compute;
      first [left; discriminate | right; discriminate]. }
  split; [exact H|].
  exact (proj2 (proj2 (proj2 (proj2 (C1_first_match peerTwoSessions)))) H).
Defined.

(** C2 at a peer whose string columns hold no comma, and its first part
    at the peer whose user agent holds one. *)
Lemma C2_csv_line_witness :
  (forall f c, isSeparator c -> strings.Count (Sprint_zero f) c = 0%nat)
  /\ countInStringFields comma peerPlain = 0%nat
  /\ (ToCsvLine Sprint_zero peerPlain
      = strings.Join (csvFields Sprint_zero peerPlain) "," ++ newline
      /\ List.length (csvFields Sprint_zero peerPlain) = 27%nat
      /\ (forall b, strconv.FormatBool b = if b then "true" else "false")
      /\ nth 20 (csvFields Sprint_zero peerPlain) ""
         = fmt.Sprintf_3f (GetConnectedTime peerPlain)
      /\ threeDecimals (fmt.Sprintf_3f (GetConnectedTime peerPlain)))
  /\ (strings.Split (strings.Join (csvFields Sprint_zero peerPlain) ",")
        comma
      = csvFields Sprint_zero peerPlain
      /\ List.length (strings.Split (ToCsvLine Sprint_zero peerPlain) comma)
         = 27%nat)
  /\ (ToCsvLine Sprint_zero peerCommaAgent
      = strings.Join (csvFields Sprint_zero peerCommaAgent) "," ++ newline
      /\ List.length (csvFields Sprint_zero peerCommaAgent) = 27%nat
      /\ nth 2 (csvFields Sprint_zero peerCommaAgent) ""
         = "teku/v21.1,linux").
Proof.
  assert (Hp : countInStringFields comma peerPlain = 0%nat)
    by reflexivity.
  destruct (C2_csv_line Sprint_zero peerPlain)
    as (J & L & B & N & D & S).
  destruct (C2_csv_line Sprint_zero peerCommaAgent)
    as (J' & L' & _).
  split; [exact Sprint_zero_plain|]. split; [exact Hp|].
  split; [exact (conj J (conj L (conj B (conj N D))))|].
  split; [exact (S Sprint_zero_plain Hp)|].
  split; [exact J'|]. split; [exact L' | reflexivity].
Defined.

(** C4 at a failed and a successful attempt on a fresh peer. *)
Lemma C4_attempts_counted_witness :
  let calls := [(false, "dial backoff: peer unreachable"); (true, "")] in
  let ops := [OpCountMessage "beacon_block"; OpResetDynamicMetrics;
              OpAddDisconnectionEvent (5 * Millisecond)] in
  let fresh := NewPeer "16Uiu2HAm" in
  Z.of_nat (List.length calls) < 2 ^ 64
  /\ (Attempted fresh = false
      /\ Attempts (recordAttempts beforeColon calls fresh)
         = Z.of_nat (List.length calls)
      /\ Attempted (recordAttempts beforeColon calls fresh)
         = match calls with [] => false | _ :: _ => true end
      /\ Attempted (applyOps beforeColon sampleTopics ops peerPlain)
         = Attempted peerPlain || existsb isAttempt ops
      /\ (Attempted peerPlain = true ->
          Attempted (applyOps beforeColon sampleTopics ops peerPlain) = true)
      /\ Attempted (ResetDynamicMetrics peerPlain) = Attempted peerPlain
      /\ Attempts (ResetDynamicMetrics peerPlain) = 0).
Proof.
  cbv zeta. split; [reflexivity|].
  apply (C4_attempts_counted beforeColon sampleTopics "16Uiu2HAm"
           [(false, "dial backoff: peer unreachable"); (true, "")]).
  reflexivity.
Defined.

(** C5 at the topic name [unknown-topic]. *)
Lemma C5_unknown_topic_witness :
  ~ In "unknown-topic" (pgossip.all sampleTopics)
  /\ (GetMessageMetrics sampleTopics peerPlain "unknown-topic"
      = (None, Some (errors.New ("unknown topic name: " ++ "unknown-topic")))
      /\ let pm' := applyOp beforeColon sampleTopics
                      (OpGetMessageMetrics "unknown-topic") peerPlain in
         pm' = peerPlain
         /\ (forall r, load r pm' = load r peerPlain)
         /\ GetAllMessagesCount pm' = GetAllMessagesCount peerPlain).
Proof.
  assert (H : ~ In "unknown-topic" (pgossip.all sampleTopics)).
  { unfold pgossip.all, sampleTopics; cbn. intuition discriminate. }
  split; [exact H|].
  exact (C5_unknown_topic beforeColon sampleTopics peerPlain
           "unknown-topic" H).
Defined.

(** C6 at the voluntary-exit topic. *)
Lemma C6_count_message_witness :
  NoDup (pgossip.all sampleTopics)
  /\ (GetMessageMetrics sampleTopics peerPlain "voluntary_exit"
      = (Some RefVoluntaryExit, None)
      /\ (let pm' := fst (CountMessage sampleTopics "voluntary_exit"
                            peerPlain) in
          snd (CountMessage sampleTopics "voluntary_exit" peerPlain) = None
          /\ Count (load RefVoluntaryExit pm')
             = wrap_uint64 (Count (load RefVoluntaryExit peerPlain) + 1)
          /\ (forall r', r' <> RefVoluntaryExit ->
                         load r' pm' = load r' peerPlain))
      /\ GetAllMessagesCount peerPlain
         = wrap_uint64
             (Count (BeaconBlock peerPlain)
              + Count (BeaconAggregateProof peerPlain)
              + Count (VoluntaryExit peerPlain)
              + Count (ProposerSlashing peerPlain)
              + Count (AttesterSlashing peerPlain))
      /\ (in_uint64
            (Count (BeaconBlock peerPlain)
             + Count (BeaconAggregateProof peerPlain)
             + Count (VoluntaryExit peerPlain)
             + Count (ProposerSlashing peerPlain)
             + Count (AttesterSlashing peerPlain)) ->
          GetAllMessagesCount peerPlain
          = Count (BeaconBlock peerPlain)
            + Count (BeaconAggregateProof peerPlain)
            + Count (VoluntaryExit peerPlain)
            + Count (ProposerSlashing peerPlain)
            + Count (AttesterSlashing peerPlain))).
Proof.
  split; [exact sampleTopics_distinct|].
  exact (C6_count_message sampleTopics peerPlain RefVoluntaryExit
           sampleTopics_distinct).
Defined.

(** C9 at a disconnection half a millisecond before a connection, with
    the contribution of a pair 2.5 ms apart and the exact [float64] of
    90000. *)
Lemma C9_millisecond_scale_witness :
  let c := 1 * Millisecond in
  let d := 500000 in
  let rest := [5 * Millisecond] in
  Z.abs (d - c) < Millisecond
  /\ in_int64 0
  /\ (singleConnectionTime c d = 0
      /\ firstMatch c (d :: rest) = Some d
      /\ contribution c (d :: rest) = 0
      /\ scanDisconnections c (d :: rest) 0 = 0)
  /\ (singleConnectionTime 0 2500000 = 2500000 ÷ 1000000
      /\ singleConnectionTime 0 2500000 = 2
      /\ contribution 0 [2500000] = singleConnectionTime 0 2500000)
  /\ represents 90000 (Prim2SF (float64_of_int 90000))
  /\ Prim2SF (GetConnectedTime peerNinetySeconds)
     = SFdiv prec emax (binary_normalize prec emax 90000 0 false)
         (binary_normalize prec emax 60000 0 false)
  /\ GetConnectedTime peerNinetySeconds = 1.5%float
  /\ isFinite (GetConnectedTime peerNinetySeconds) = true.
Proof.
  cbv zeta.
  assert (H1 : Z.abs (500000 - 1 * Millisecond) < Millisecond)
    by reflexivity.
  assert (H2 : in_int64 0) by (split; [discriminate | reflexivity]).
  destruct (C9_millisecond_scale peerNinetySeconds)
    as (_ & Q & E & _ & R & M & _ & FIN & CL & X).
  destruct (CL (1 * Millisecond) 500000 H1) as (Z0 & CR).
  destruct (CR [5 * Millisecond]) as (F & C & S).
  assert (H3 : - 2 ^ 63 <= 2500000 - 0 < 2 ^ 63)
    by (split; [discriminate | reflexivity]).
  assert (H4 : Z.abs 90000 < 2 ^ 53) by reflexivity.
  assert (H5 : firstMatch 0 [2500000] = Some 2500000) by reflexivity.
  split; [exact H1|]. split; [exact H2|].
  split; [exact (conj Z0 (conj F (conj C (S 0 H2))))|].
  split.
  { split; [exact (proj1 (R 0 2500000 H3))|].
    split; [reflexivity | exact (proj1 (M 0 [2500000] 2500000 H5))]. }
  split; [exact (E 90000 H4)|].
  split; [exact Q|].
  split; [exact (proj1 (proj2 (proj2 (proj2 X)))) | exact FIN].
Defined.

(** C10 at a peer whose user agent holds one comma. *)
Lemma C10_no_escaping_witness :
  (forall f c, isSeparator c -> strings.Count (Sprint_zero f) c = 0%nat)
  /\ (ToCsvLine Sprint_zero peerCommaAgent
      = strings.Join (csvFields Sprint_zero peerCommaAgent) "," ++ newline
      /\ Forall (fun s => In s (csvFields Sprint_zero peerCommaAgent))
           (stringFields peerCommaAgent)
      /\ List.length
           (strings.Split (ToCsvLine Sprint_zero peerCommaAgent) comma)
         = (27 + countInStringFields comma peerCommaAgent)%nat
      /\ (List.length
            (strings.Split (ToCsvLine Sprint_zero peerCommaAgent) comma)
          = 27%nat <-> countInStringFields comma peerCommaAgent = 0%nat)
      /\ strings.Count (ToCsvLine Sprint_zero peerCommaAgent) lf
         = (1 + countInStringFields lf peerCommaAgent)%nat).
Proof.
  split; [exact Sprint_zero_plain|].
  exact (C10_no_escaping Sprint_zero Sprint_zero_plain peerCommaAgent).
Defined.

(** * Further properties of the peer entity *)

Section Sequences.

Variable FilterError : string -> string.
Variable T : pgossip.Topics.

Lemma applyOps_cons op ops pm :
  applyOps FilterError T (op :: ops) pm
  = applyOps FilterError T ops (applyOp FilterError T op pm).
Proof. reflexivity. Qed.

Lemma applyOps_app ops ops' pm :
  applyOps FilterError T (ops ++ ops') pm
  = applyOps FilterError T ops' (applyOps FilterError T ops pm).
Proof. unfold applyOps. apply fold_left_app. Qed.

(** The fields that [CountMessage] leaves alone. *)
Lemma CountMessage_frame topic pm :
  let pm' := fst (CountMessage T topic pm) in
  ConnectionTimes pm' = ConnectionTimes pm
  /\ DisconnectionTimes pm' = DisconnectionTimes pm
  /\ IsConnected pm' = IsConnected pm
  /\ ConnectedDirection pm' = ConnectedDirection pm
  /\ Succeed pm' = Succeed pm /\ Error pm' = Error pm
  /\ Attempts pm' = Attempts pm.
Proof.
  cbv zeta. unfold CountMessage.
  destruct (GetMessageMetrics T pm topic) as [[r|] e]; cbn [fst];
    [destruct r|]; repeat split.
Qed.

Lemma AddNewConnectionAttempt_frame succeed err pm :
  let pm' := AddNewConnectionAttempt FilterError succeed err pm in
  ConnectionTimes pm' = ConnectionTimes pm
  /\ DisconnectionTimes pm' = DisconnectionTimes pm
  /\ IsConnected pm' = IsConnected pm
  /\ ConnectedDirection pm' = ConnectedDirection pm.
Proof.
  destruct pm as [], succeed, Attempted0; repeat split.
Qed.

Lemma ConnectionTimes_applyOp op pm :
  ConnectionTimes (applyOp FilterError T op pm)
  = (ConnectionTimes pm ++ connectionInstants [op])%list.
Proof.
  destruct op; cbn [applyOp connectionInstants flat_map];
    rewrite ?app_nil_r; try reflexivity.
  - apply AddNewConnectionAttempt_frame.
  - apply CountMessage_frame.
Qed.

Lemma DisconnectionTimes_applyOp op pm :
  DisconnectionTimes (applyOp FilterError T op pm)
  = (DisconnectionTimes pm ++ disconnectionInstants [op])%list.
Proof.
  destruct op; cbn [applyOp disconnectionInstants flat_map];
    rewrite ?app_nil_r; try reflexivity.
  - apply AddNewConnectionAttempt_frame.
  - apply CountMessage_frame.
Qed.

(** X1.  The two histories are append-only: after any sequence of calls,
    [ConnectionTimes] is what it was followed by the instants of the
    connection events of the sequence, in order, and [DisconnectionTimes]
    likewise; no call removes or reorders an instant, and the lengths
    grow by the numbers of events.  A sequence with no connection and no
    disconnection event (attempts, resets, counting, exports) leaves the
    connected time as it was. *)
Theorem histories_append_only ops pm :
  ConnectionTimes (applyOps FilterError T ops pm)
  = (ConnectionTimes pm ++ connectionInstants ops)%list
  /\ DisconnectionTimes (applyOps FilterError T ops pm)
     = (DisconnectionTimes pm ++ disconnectionInstants ops)%list
  /\ List.length (ConnectionTimes (applyOps FilterError T ops pm))
     = (List.length (ConnectionTimes pm)
        + List.length (connectionInstants ops))%nat
  /\ List.length (DisconnectionTimes (applyOps FilterError T ops pm))
     = (List.length (DisconnectionTimes pm)
        + List.length (disconnectionInstants ops))%nat
  /\ (connectionInstants ops = [] -> disconnectionInstants ops = [] ->
      GetConnectedTime (applyOps FilterError T ops pm)
      = GetConnectedTime pm).
Proof.
  assert (H : ConnectionTimes (applyOps FilterError T ops pm)
              = (ConnectionTimes pm ++ connectionInstants ops)%list
              /\ DisconnectionTimes (applyOps FilterError T ops pm)
                 = (DisconnectionTimes pm ++ disconnectionInstants ops)%list).
  { revert pm. induction ops as [|op ops IH]; intros pm.
    - cbn. now rewrite !app_nil_r.
    - rewrite applyOps_cons. destruct (IH (applyOp FilterError T op pm)) as [C D].
      rewrite C, D, ConnectionTimes_applyOp, DisconnectionTimes_applyOp.
      rewrite <- !app_assoc. unfold connectionInstants, disconnectionInstants.
      cbn [flat_map]. now rewrite !app_nil_r. }
  destruct H as [C D]. rewrite !C, !D, !length_app.
  repeat split.
  intros Ec Ed. unfold GetConnectedTime, totalConnectedTime.
  now rewrite C, D, Ec, Ed, !app_nil_r.
Qed.

(** X2.  No call assigns the identity of a peer: after any sequence of
    calls the identifiers, the client and location texts, the latency,
    the metadata flags and the export stamp are what they were. *)
Theorem identity_immutable ops pm :
  let pm' := applyOps FilterError T ops pm in
  PeerId pm' = PeerId pm /\ NodeId pm' = NodeId pm
  /\ UserAgent pm' = UserAgent pm /\ ClientName pm' = ClientName pm
  /\ ClientOS pm' = ClientOS pm /\ ClientVersion pm' = ClientVersion pm
  /\ Pubkey pm' = Pubkey pm /\ Addrs pm' = Addrs pm /\ Ip pm' = Ip pm
  /\ Country pm' = Country pm /\ City pm' = City pm
  /\ Latency pm' = Latency pm
  /\ MetadataRequest pm' = MetadataRequest pm
  /\ MetadataSucceed pm' = MetadataSucceed pm
  /\ LastExport pm' = LastExport pm.
Proof.
  cbv zeta. revert pm. induction ops as [|op ops IH]; intros pm.
  - repeat split.
  - rewrite applyOps_cons.
    assert (S : let pm' := applyOp FilterError T op pm in
      PeerId pm' = PeerId pm /\ NodeId pm' = NodeId pm
      /\ UserAgent pm' = UserAgent pm /\ ClientName pm' = ClientName pm
      /\ ClientOS pm' = ClientOS pm /\ ClientVersion pm' = ClientVersion pm
      /\ Pubkey pm' = Pubkey pm /\ Addrs pm' = Addrs pm /\ Ip pm' = Ip pm
      /\ Country pm' = Country pm /\ City pm' = City pm
      /\ Latency pm' = Latency pm
      /\ MetadataRequest pm' = MetadataRequest pm
      /\ MetadataSucceed pm' = MetadataSucceed pm
      /\ LastExport pm' = LastExport pm).
    { cbv zeta. destruct op; cbn [applyOp]; try (repeat split; fail).
      - destruct pm as [], succeed, Attempted0; repeat split.
      - unfold CountMessage.
        destruct (GetMessageMetrics T pm topic) as [[r|] e]; cbn [fst];
          [destruct r|]; repeat split. }
    cbv zeta in S. specialize (IH (applyOp FilterError T op pm)).
    repeat match goal with H : _ /\ _ |- _ => destruct H end.
    repeat split; congruence.
Qed.

Lemma connectivity_applyOp op pm :
  (IsConnected (applyOp FilterError T op pm),
   ConnectedDirection (applyOp FilterError T op pm))
  = match lastConnectivity [op] with
    | Some st => st
    | None => (IsConnected pm, ConnectedDirection pm)
    end.
Proof.
  destruct op; cbn [applyOp lastConnectivity]; try reflexivity.
  - destruct (AddNewConnectionAttempt_frame succeed err pm)
      as (_ & _ & I & D). now rewrite I, D.
  - destruct (CountMessage_frame topic pm) as (_ & _ & I & D & _).
    now rewrite I, D.
Qed.

(** X3.  After any sequence of calls, [IsConnected] and
    [ConnectedDirection] are those left by the last connection or
    disconnection event of the sequence (connected with the event's
    direction, or disconnected with the empty direction), whatever other
    calls come between or after; without such an event they are what
    they were.  So a peer that starts disconnected with an empty
    direction is never disconnected with a direction left behind. *)
Theorem connectivity_is_last_event ops pm :
  (IsConnected (applyOps FilterError T ops pm),
   ConnectedDirection (applyOps FilterError T ops pm))
  = match lastConnectivity ops with
    | Some st => st
    | None => (IsConnected pm, ConnectedDirection pm)
    end
  /\ ((IsConnected pm = false -> ConnectedDirection pm = "") ->
      IsConnected (applyOps FilterError T ops pm) = false ->
      ConnectedDirection (applyOps FilterError T ops pm) = "").
Proof.
  assert (L : forall ops pm,
            (IsConnected (applyOps FilterError T ops pm),
             ConnectedDirection (applyOps FilterError T ops pm))
            = match lastConnectivity ops with
              | Some st => st
              | None => (IsConnected pm, ConnectedDirection pm)
              end).
  { clear ops pm. induction ops as [|op ops IH]; intros pm; [reflexivity|].
    rewrite applyOps_cons, IH. cbn [lastConnectivity].
    destruct (lastConnectivity ops); [reflexivity|].
    rewrite connectivity_applyOp. cbn [lastConnectivity].
    destruct op; reflexivity. }
  assert (E : forall ops st, lastConnectivity ops = Some st ->
                             fst st = false -> snd st = "").
  { clear. induction ops as [|op ops IH]; intros st; cbn [lastConnectivity];
      [discriminate|].
    destruct (lastConnectivity ops) as [st'|].
    - intros [= <-]. now apply IH.
    - destruct op; try discriminate; intros [= <-]; cbn;
        [discriminate | reflexivity]. }
  split; [apply L|].
  intros H0 H. pose proof (L ops pm) as P.
  destruct (lastConnectivity ops) as [[b s]|] eqn:Q.
  - injection P as P1 P2. rewrite P2. apply (E ops (b, s) Q).
    cbn. congruence.
  - injection P as P1 P2. rewrite P2. apply H0. congruence.
Qed.

Lemma Succeed_applyOp op pm :
  Succeed (applyOp FilterError T op pm) = Succeed pm || isSuccess op.
Proof.
  destruct op; cbn [applyOp isSuccess]; rewrite ?orb_false_r;
    try reflexivity.
  - destruct pm as [], succeed, Attempted0, Succeed0; reflexivity.
  - apply CountMessage_frame.
Qed.

Lemma Error_applyOp op pm :
  Error (applyOp FilterError T op pm)
  = match lastAttempt [op] with
    | Some (true, _) => "None"
    | Some (false, err) => FilterError err
    | None => Error pm
    end.
Proof.
  destruct op; cbn [applyOp lastAttempt]; try reflexivity.
  - destruct pm as [], succeed, Attempted0; reflexivity.
  - apply CountMessage_frame.
Qed.

(** X4.  After any sequence of calls, [Succeed] is what it was or-ed with
    "some attempt of the sequence succeeded": a later failure never
    clears it, and nothing but a successful attempt sets it.  [Error]
    is decided by the last attempt of the sequence alone: ["None"] when
    it succeeded, the filtered text of its error when it failed; without
    an attempt [Error] is what it was. *)
Theorem outcome_of_attempts ops pm :
  Succeed (applyOps FilterError T ops pm)
  = Succeed pm || existsb isSuccess ops
  /\ Error (applyOps FilterError T ops pm)
     = match lastAttempt ops with
       | Some (true, _) => "None"
       | Some (false, err) => FilterError err
       | None => Error pm
       end.
Proof.
  revert pm. induction ops as [|op ops IH]; intros pm.
  - cbn. now rewrite orb_false_r.
  - rewrite applyOps_cons. destruct (IH (applyOp FilterError T op pm))
      as [S E].
    rewrite S, E, Succeed_applyOp, Error_applyOp.
    cbn [existsb lastAttempt]. split; [now rewrite orb_assoc|].
    destruct (lastAttempt ops) as [[[] ?]|]; reflexivity.
Qed.

Lemma Attempts_applyOp op pm :
  Attempts (applyOp FilterError T op pm)
  = if isReset op then 0
    else if isAttempt op then wrap_uint64 (Attempts pm + 1)
    else Attempts pm.
Proof.
  destruct op; cbn [applyOp isReset isAttempt]; try reflexivity.
  - apply Attempts_AddNewConnectionAttempt.
  - apply CountMessage_frame.
Qed.

Lemma Attempts_no_reset ops : forall pm,
  existsb isReset ops = false ->
  in_uint64 (Attempts pm) ->
  Attempts (applyOps FilterError T ops pm)
  = wrap_uint64 (Attempts pm + countAttempts ops).
Proof.
  unfold countAttempts.
  induction ops as [|op ops IH]; intros pm R Hpm.
  - cbn. rewrite Z.add_0_r. symmetry. now apply wrap_uint64_small.
  - cbn [existsb] in R. apply orb_false_elim in R. destruct R as [Rop R].
    rewrite applyOps_cons, IH; [|assumption|].
    + rewrite Attempts_applyOp, Rop. cbn [filter].
      destruct (isAttempt op).
      * rewrite wrap_uint64_add_l. f_equal. cbn [List.length]. lia.
      * reflexivity.
    + rewrite Attempts_applyOp, Rop.
      destruct (isAttempt op); [apply wrap_uint64_range | assumption].
Qed.

Lemma sinceLastReset_no_reset ops :
  existsb isReset (sinceLastReset ops) = false.
Proof.
  induction ops as [|op ops IH]; [reflexivity|].
  cbn [sinceLastReset].
  destruct (existsb isReset ops) eqn:R; [exact IH|].
  destruct (isReset op) eqn:Rop; [exact R|].
  cbn [existsb]. now rewrite Rop, R.
Qed.

Lemma sinceLastReset_suffix ops :
  exists before, ops = (before ++ sinceLastReset ops)%list.
Proof.
  induction ops as [|op ops [before IH]]; [now exists []|].
  cbn [sinceLastReset].
  destruct (existsb isReset ops).
  - exists (op :: before). cbn. now rewrite <- IH.
  - destruct (isReset op); [now exists [op] | now exists []].
Qed.

(** X5.  [Attempts] counts the attempts of the current window: after a
    sequence of calls that holds a [ResetDynamicMetrics], it is the
    number of connection attempts after the last one; after a sequence
    that holds none, it is what it was plus the number of attempts of
    the sequence (both as [uint64]). *)
Theorem attempts_since_last_reset ops pm
    (Hpm : in_uint64 (Attempts pm)) :
  Attempts (applyOps FilterError T ops pm)
  = wrap_uint64
      ((if existsb isReset ops then 0 else Attempts pm)
       + countAttempts (sinceLastReset ops))
  /\ existsb isReset (sinceLastReset ops) = false
  /\ exists before, ops = (before ++ sinceLastReset ops)%list.
Proof.
  split; [|split; [apply sinceLastReset_no_reset
                  | apply sinceLastReset_suffix]].
  revert pm Hpm. induction ops as [|op ops IH]; intros pm Hpm.
  - cbn. rewrite Z.add_0_r. symmetry. now apply wrap_uint64_small.
  - assert (Hop : in_uint64 (Attempts (applyOp FilterError T op pm))).
    { rewrite Attempts_applyOp.
      destruct (isReset op); [unfold in_uint64; lia|].
      destruct (isAttempt op); [apply wrap_uint64_range | assumption]. }
    rewrite applyOps_cons. cbn [existsb sinceLastReset].
    destruct (existsb isReset ops) eqn:R.
    + rewrite orb_true_r. now apply IH.
    + rewrite orb_false_r.
      rewrite Attempts_no_reset by assumption.
      rewrite Attempts_applyOp.
      destruct (isReset op) eqn:Rop; [reflexivity|].
      unfold countAttempts. cbn [filter].
      destruct (isAttempt op); [|reflexivity].
      rewrite wrap_uint64_add_l. f_equal. cbn [List.length]. lia.
Qed.

Lemma PeerId_applyOp op pm : PeerId (applyOp FilterError T op pm) = PeerId pm.
Proof.
  destruct op; cbn [applyOp]; try reflexivity.
  - destruct pm as [], succeed, Attempted0; reflexivity.
  - unfold CountMessage.
    destruct (GetMessageMetrics T pm topic) as [[r|] e]; cbn [fst];
      [destruct r|]; reflexivity.
Qed.

(** X6.  Every state that calls can bring a freshly created peer to
    keeps its identifier, has [Attempts] in the [uint64] range, has
    [Attempted] true whenever [Succeed] is true or [Attempts] is not
    zero, has [Error] at ["None"] as long as no attempt was made, and
    has an empty [ConnectedDirection] whenever it is not connected. *)
Theorem reachable_invariants peerId ops :
  let pm := applyOps FilterError T ops (NewPeer peerId) in
  PeerId pm = peerId
  /\ in_uint64 (Attempts pm)
  /\ (Succeed pm = true -> Attempted pm = true)
  /\ (Attempts pm <> 0 -> Attempted pm = true)
  /\ (Attempted pm = false -> Error pm = "None")
  /\ (IsConnected pm = false -> ConnectedDirection pm = "").
Proof.
  cbv zeta.
  set (Inv := fun pm =>
         PeerId pm = peerId
         /\ in_uint64 (Attempts pm)
         /\ (Succeed pm = true -> Attempted pm = true)
         /\ (Attempts pm <> 0 -> Attempted pm = true)
         /\ (Attempted pm = false -> Error pm = "None")
         /\ (IsConnected pm = false -> ConnectedDirection pm = "")).
  assert (Step : forall op pm, Inv pm -> Inv (applyOp FilterError T op pm)).
  { intros op pm (I1 & I2 & I3 & I4 & I5 & I6). unfold Inv.
    rewrite PeerId_applyOp, Attempts_applyOp, Succeed_applyOp,
      Attempted_applyOp, Error_applyOp.
    split; [exact I1|]. split.
    { destruct (isReset op); [unfold in_uint64; lia|].
      destruct (isAttempt op); [apply wrap_uint64_range | exact I2]. }
    split.
    { intros S. apply orb_true_iff in S. apply orb_true_iff.
      destruct S as [S|S]; [left; now apply I3 | right].
      destruct op; try discriminate. reflexivity. }
    split.
    { destruct (isAttempt op); [now rewrite orb_true_r|].
      rewrite orb_false_r. destruct (isReset op); [congruence | exact I4]. }
    split.
    { intros A. apply orb_false_elim in A. destruct A as [A Aop].
      destruct op; try discriminate; cbn [lastAttempt]; now apply I5. }
    pose proof (connectivity_applyOp op pm) as P.
    pose proof (f_equal fst P) as P1. pose proof (f_equal snd P) as P2.
    cbn [fst snd] in P1, P2. rewrite P1, P2.
    destruct op; cbn [lastConnectivity fst snd]; try exact I6;
      [discriminate | reflexivity]. }
  assert (All : forall ops pm,
            Inv pm -> Inv (applyOps FilterError T ops pm)).
  { clear ops. induction ops as [|op ops IH]; intros pm I; [exact I|].
    rewrite applyOps_cons. now apply IH, Step. }
  apply All. unfold Inv. cbn.
  repeat split; try reflexivity; try discriminate; try lia.
Qed.

Lemma load_applyOp op pm r :
  touchesCounters op = false ->
  load r (applyOp FilterError T op pm) = load r pm.
Proof.
  destruct op; cbn [touchesCounters applyOp]; try discriminate; intros _;
    try (destruct r; reflexivity).
  destruct pm as [], r, succeed, Attempted0; reflexivity.
Qed.

(** X14.  The connection bookkeeping never disturbs the message counters:
    after any sequence of calls that holds no [ResetDynamicMetrics] and
    no counter increment, each of the five counters, and so
    [GetAllMessagesCount], is what it was. *)
Theorem counters_untouched ops pm
    (Hops : existsb touchesCounters ops = false) :
  (forall r, load r (applyOps FilterError T ops pm) = load r pm)
  /\ GetAllMessagesCount (applyOps FilterError T ops pm)
     = GetAllMessagesCount pm.
Proof.
  assert (L : forall r, load r (applyOps FilterError T ops pm) = load r pm).
  { revert pm. induction ops as [|op ops IH]; intros pm r; [reflexivity|].
    cbn [existsb] in Hops. apply orb_false_elim in Hops.
    destruct Hops as [Hop Hops].
    rewrite applyOps_cons, (IH Hops). now apply load_applyOp. }
  split; [exact L|].
  unfold GetAllMessagesCount.
  pose proof (L RefBeaconBlock) as L1.
  pose proof (L RefBeaconAggregateProof) as L2.
  pose proof (L RefVoluntaryExit) as L3.
  pose proof (L RefProposerSlashing) as L4.
  pose proof (L RefAttesterSlashing) as L5.
  cbn [load] in L1, L2, L3, L4, L5.
  now rewrite L1, L2, L3, L4, L5.
Qed.

End Sequences.

(** ** Further properties of the connected time *)

Lemma fold_scan_no_disconnection conTimes : forall total,
  fold_left (fun total conTime => scanDisconnections conTime [] total)
    conTimes total = total.
Proof. induction conTimes as [|c rest IH]; intros total; cbn; auto. Qed.

(** X7.  A peer with no recorded connection, or with no recorded
    disconnection (never connected, or still in its first session), has
    connected time zero, exported as [0.000]. *)
Theorem connected_time_of_empty_history pm
    (Hempty : ConnectionTimes pm = [] \/ DisconnectionTimes pm = []) :
  totalConnectedTime pm = 0
  /\ GetConnectedTime pm = 0%float
  /\ fmt.Sprintf_3f (GetConnectedTime pm) = "0.000".
Proof.
  assert (Z0 : totalConnectedTime pm = 0).
  { unfold totalConnectedTime. destruct Hempty as [-> | ->];
      [reflexivity | apply fold_scan_no_disconnection]. }
  unfold GetConnectedTime. rewrite Z0.
  repeat split; vm_compute; reflexivity.
Qed.

Lemma singleConnectionTime_le (c d : time.Time) :
  singleConnectionTime c d <= maxSingleConnectionTime.
Proof.
  unfold singleConnectionTime, maxSingleConnectionTime.
  destruct (Milliseconds_truncates (time.Sub d c)) as (r & E & Hp & Hn).
  unfold Millisecond in *.
  destruct (Sub_cases d c) as [[S B]|[[S B]|[S B]]]; rewrite S in *; lia.
Qed.

Lemma contribution_bounds c discTimes :
  0 <= contribution c discTimes <= maxSingleConnectionTime.
Proof.
  unfold contribution.
  destruct (firstMatch c discTimes) as [d|] eqn:F.
  - apply firstMatch_matches in F. destruct F as [_ F].
    pose proof (singleConnectionTime_le c d). lia.
  - unfold maxSingleConnectionTime. lia.
Qed.

Lemma contributions_bounds conTimes discTimes :
  0 <= contributions conTimes discTimes
    <= Z.of_nat (List.length conTimes) * maxSingleConnectionTime.
Proof.
  unfold contributions.
  induction conTimes as [|c rest IH]; cbn [map fold_right List.length].
  - lia.
  - pose proof (contribution_bounds c discTimes). lia.
Qed.

Lemma totalConnectedTime_exact pm :
  Z.of_nat (List.length (ConnectionTimes pm)) <= 1000000 ->
  totalConnectedTime pm
  = contributions (ConnectionTimes pm) (DisconnectionTimes pm).
Proof.
  intros H. rewrite totalConnectedTime_contributions.
  apply wrap_int64_small.
  pose proof (contributions_bounds (ConnectionTimes pm)
                (DisconnectionTimes pm)) as B.
  unfold maxSingleConnectionTime, in_int64 in *. lia.
Qed.

(** X8.  One pair of instants contributes between 0 and 9223372036854
    milliseconds (the longest [Duration]), so for a peer with at most a
    million recorded connections the [int64] total cannot overflow: it
    is the plain sum of the contributions, and it is not negative. *)
Theorem connected_time_no_overflow pm
    (Hlen : Z.of_nat (List.length (ConnectionTimes pm)) <= 1000000) :
  (forall c, 0 <= contribution c (DisconnectionTimes pm)
               <= maxSingleConnectionTime)
  /\ totalConnectedTime pm
     = contributions (ConnectionTimes pm) (DisconnectionTimes pm)
  /\ 0 <= totalConnectedTime pm
       <= Z.of_nat (List.length (ConnectionTimes pm))
          * maxSingleConnectionTime.
Proof.
  split; [intros c; apply contribution_bounds|].
  rewrite totalConnectedTime_exact by assumption.
  split; [reflexivity | apply contributions_bounds].
Qed.

Lemma firstMatch_skip c pre rest :
  Forall (fun d => d + Millisecond <= c) pre ->
  firstMatch c (pre ++ rest) = firstMatch c rest.
Proof.
  unfold firstMatch. induction 1 as [|d pre Hd _ IH]; [reflexivity|].
  cbn [app find].
  destruct (0 <=? singleConnectionTime c d) eqn:M; [|exact IH].
  apply singleConnectionTime_nonneg in M. lia.
Qed.

Lemma firstMatch_none c discTimes :
  Forall (fun d => d + Millisecond <= c) discTimes ->
  firstMatch c discTimes = None.
Proof.
  intros H. rewrite <- (app_nil_r discTimes).
  now rewrite firstMatch_skip.
Qed.

Lemma firstMatch_head c d rest :
  c <= d -> firstMatch c (d :: rest) = Some d.
Proof.
  intros H. unfold firstMatch. cbn [find].
  assert (M : (0 <=? singleConnectionTime c d) = true)
    by (apply singleConnectionTime_nonneg; unfold Millisecond; lia).
  now rewrite M.
Qed.

Lemma contributions_app conTimes conTimes' discTimes :
  contributions (conTimes ++ conTimes') discTimes
  = contributions conTimes discTimes + contributions conTimes' discTimes.
Proof.
  unfold contributions.
  induction conTimes as [|c rest IH]; cbn [app map fold_right]; lia.
Qed.

Lemma sessions_contributions sessions : forall pre t0,
  sessionsFrom t0 sessions ->
  Forall (fun d => d + Millisecond <= t0) pre ->
  contributions (map fst sessions) (pre ++ map snd sessions)
  = sessionsTotal sessions.
Proof.
  unfold contributions, sessionsTotal.
  induction sessions as [|[c d] rest IH]; intros pre t0 S P;
    [reflexivity|].
  cbn [sessionsFrom] in S. destruct S as (S0 & S1 & S).
  cbn [map fold_right fst snd]. f_equal.
  - unfold contribution.
    rewrite firstMatch_skip, firstMatch_head; [reflexivity|assumption|].
    apply Forall_impl with (2 := P). intros; lia.
  - change (pre ++ d :: map snd rest)%list
      with (pre ++ [d] ++ map snd rest)%list.
    rewrite app_assoc. apply (IH _ (d + Millisecond) S).
    apply Forall_app. split.
    + apply Forall_impl with (2 := P). unfold Millisecond. intros; lia.
    + constructor; [lia | constructor].
Qed.

Lemma contributions_unmatched conTimes discTimes :
  Forall (fun c => Forall (fun d => d + Millisecond <= c) discTimes)
    conTimes ->
  contributions conTimes discTimes = 0.
Proof.
  unfold contributions.
  induction 1 as [|c rest Hc _ IH]; [reflexivity|].
  cbn [map fold_right]. rewrite IH. unfold contribution.
  now rewrite firstMatch_none.
Qed.

(** X9.  When the histories are those of sessions that follow one
    another, every reconnection at least a millisecond after the
    disconnection before it, possibly with later connections that have
    no disconnection yet, each session is paired with its own
    disconnection: the total is the sum of the lengths of the sessions in
    whole milliseconds, and the open connections add nothing. *)
Theorem separated_sessions_counted pm t0 sessions later
    (Hsessions : sessionsFrom t0 sessions)
    (Hlater : Forall
                (fun c => Forall (fun d => d + Millisecond <= c)
                            (map snd sessions))
                later)
    (Hcon : ConnectionTimes pm = (map fst sessions ++ later)%list)
    (Hdisc : DisconnectionTimes pm = map snd sessions) :
  contributions (ConnectionTimes pm) (DisconnectionTimes pm)
  = sessionsTotal sessions
  /\ totalConnectedTime pm = wrap_int64 (sessionsTotal sessions)
  /\ (Z.of_nat (List.length (ConnectionTimes pm)) <= 1000000 ->
      totalConnectedTime pm = sessionsTotal sessions).
Proof.
  assert (C : contributions (ConnectionTimes pm) (DisconnectionTimes pm)
              = sessionsTotal sessions).
  { rewrite Hcon, Hdisc, contributions_app.
    rewrite <- (sessions_contributions sessions [] t0 Hsessions)
      by constructor.
    cbn [app]. rewrite (contributions_unmatched _ _ Hlater). lia. }
  split; [exact C|].
  split; [now rewrite totalConnectedTime_contributions, C|].
  intros H. now rewrite totalConnectedTime_exact.
Qed.

Lemma firstMatch_app c discTimes more :
  firstMatch c (discTimes ++ more)
  = match firstMatch c discTimes with
    | Some d => Some d
    | None => firstMatch c more
    end.
Proof.
  unfold firstMatch. induction discTimes as [|d rest IH]; [reflexivity|].
  cbn [app find]. destruct (0 <=? singleConnectionTime c d); auto.
Qed.

Lemma contribution_app c discTimes more :
  contribution c (discTimes ++ more)
  = match firstMatch c discTimes with
    | Some _ => contribution c discTimes
    | None => contribution c more
    end.
Proof.
  unfold contribution. rewrite firstMatch_app.
  now destruct (firstMatch c discTimes).
Qed.

Lemma contributions_more_disconnections conTimes discTimes more :
  contributions conTimes discTimes
  <= contributions conTimes (discTimes ++ more).
Proof.
  unfold contributions.
  induction conTimes as [|c rest IH]; cbn [map fold_right]; [lia|].
  rewrite (contribution_app c discTimes more).
  pose proof (contribution_bounds c more).
  destruct (firstMatch c discTimes) eqn:F; [lia|].
  assert (contribution c discTimes = 0)
    by (unfold contribution; now rewrite F).
  lia.
Qed.

(** X10.  The scan for a connection instant stops at its first match:
    disconnection instants recorded after the match never change what it
    contributes, and one recorded when it had no match can only add.  So
    recording a further connection or disconnection event never lowers
    the connected time of a peer with fewer than a million
    connections. *)
Theorem connected_time_monotone pm direction t
    (Hlen : Z.of_nat (List.length (ConnectionTimes pm)) < 1000000) :
  (forall c more d,
     firstMatch c (DisconnectionTimes pm) = Some d ->
     contribution c (DisconnectionTimes pm ++ more)
     = contribution c (DisconnectionTimes pm))
  /\ totalConnectedTime pm
     <= totalConnectedTime (AddDisconnectionEvent t pm)
  /\ totalConnectedTime pm
     <= totalConnectedTime (AddConnectionEvent direction t pm).
Proof.
  split.
  { intros c more d F. now rewrite contribution_app, F. }
  rewrite (totalConnectedTime_exact pm) by lia.
  split.
  - rewrite totalConnectedTime_exact by (cbn; lia).
    cbn [AddDisconnectionEvent set_DisconnectionTimes set_IsConnected
         set_ConnectedDirection ConnectionTimes DisconnectionTimes].
    apply contributions_more_disconnections.
  - rewrite totalConnectedTime_exact
      by (cbn; rewrite length_app; cbn [List.length]; lia).
    cbn [AddConnectionEvent set_ConnectionTimes set_IsConnected
         set_ConnectedDirection ConnectionTimes DisconnectionTimes].
    rewrite contributions_app.
    pose proof (contributions_bounds [t] (DisconnectionTimes pm)). lia.
Qed.

(** ** The sign of the connected time *)

Lemma signOf_binary_round_aux (sx : bool) (mx ex : Z) (lx : location) :
  binary_round_aux prec emax sx mx ex lx = S754_nan
  \/ signOf (binary_round_aux prec emax sx mx ex lx) = sx.
Proof.
  unfold binary_round_aux.
  destruct (shr_fexp prec emax mx ex lx) as [mrs' e'].
  destruct (shr_fexp prec emax _ e' loc_Exact) as [mrs'' e''].
  destruct (shr_m mrs''); [now right| |now left].
  destruct (e'' <=? emax - prec); now right.
Qed.

Lemma signOf_bounded_round (B : Z) (sx : bool) (mx ex : Z) (lx : location) :
  boundedBy B (binary_round_aux prec emax sx mx ex lx) ->
  signOf (binary_round_aux prec emax sx mx ex lx) = sx.
Proof.
  intros H. destruct (signOf_binary_round_aux sx mx ex lx) as [N|S];
    [|exact S].
  rewrite N in H. destruct H.
Qed.

Lemma signOf_binary_normalize (z : Z) :
  0 <= z -> Z.abs z <= 2 ^ 63 ->
  signOf (binary_normalize prec emax z 0 false) = false.
Proof.
  intros Hz Ha. pose proof (binary_normalize_bounded z Ha) as B.
  destruct z as [|p|p]; [reflexivity| |lia].
  cbn [binary_normalize] in *. unfold binary_round in *.
  destruct (shl_align p 0 _) as [mz ez].
  now apply signOf_bounded_round with (B := 65).
Qed.

Lemma signOf_SFdiv_60000 (x : spec_float) :
  boundedBy 65 x ->
  signOf (SFdiv prec emax x sixtyThousand) = signOf x.
Proof.
  intros H. pose proof (SFdiv_60000_bounded x H) as B.
  destruct x as [s|s| |s m e]; try (now destruct H).
  - cbn. apply xorb_false_r.
  - unfold sixtyThousand, SFdiv in *.
    destruct (SFdiv_core_binary prec emax (Z.pos m) e
                (Z.pos 8246337208320000) (-37)) as [[mz ez] lz].
    rewrite (signOf_bounded_round 103 _ _ _ _ B). cbn. apply xorb_false_r.
Qed.

Lemma Prim2SF_GetConnectedTime pm :
  Prim2SF (GetConnectedTime pm)
  = SFdiv prec emax
      (binary_normalize prec emax (totalConnectedTime pm) 0 false)
      sixtyThousand.
Proof.
  unfold GetConnectedTime.
  rewrite div_spec, Prim2SF_60000, Prim2SF_float64_of_int
    by apply totalConnectedTime_range.
  reflexivity.
Qed.

Lemma fixed3_unsigned (n : Z) : unsignedThreeDecimals (fmt.fixed3 false n).
Proof.
  exists (strconv.FormatUint (n / 1000)), (fmt.pad3 (n mod 1000)).
  destruct (FormatUint_digits (n / 1000)) as [N D].
  destruct (pad3_shape (n mod 1000)) as [L P];
    [apply Z.mod_pos_bound; lia|].
  now repeat split.
Qed.

(** X11.  For a peer with at most a million recorded connections the
    connected time is never negative: the sign bit of the result is
    clear, and its export column is an unsigned decimal with three
    fractional digits. *)
Theorem connected_time_never_negative pm
    (Hlen : Z.of_nat (List.length (ConnectionTimes pm)) <= 1000000) :
  signBit (GetConnectedTime pm) = false
  /\ unsignedThreeDecimals (fmt.Sprintf_3f (GetConnectedTime pm)).
Proof.
  pose proof (totalConnectedTime_range pm) as R. unfold in_int64 in R.
  assert (Z0 : 0 <= totalConnectedTime pm).
  { rewrite totalConnectedTime_exact by assumption.
    apply contributions_bounds. }
  assert (A : Z.abs (totalConnectedTime pm) <= 2 ^ 63) by lia.
  pose proof (binary_normalize_bounded _ A) as B.
  assert (S : signOf (Prim2SF (GetConnectedTime pm)) = false).
  { rewrite Prim2SF_GetConnectedTime, signOf_SFdiv_60000 by exact B.
    now apply signOf_binary_normalize. }
  split; [exact S|].
  pose proof (SFdiv_60000_bounded _ B) as F.
  rewrite <- Prim2SF_GetConnectedTime in F.
  unfold fmt.Sprintf_3f.
  destruct (Prim2SF (GetConnectedTime pm)) as [s|s| |s m e];
    try (now destruct F); cbn [signOf] in S; subst s;
    apply fixed3_unsigned.
Qed.

(** ** Further properties of the topic counters and of the export *)

Section Topics.

Variable T : pgossip.Topics.

(** X12.  [GetMessageMetrics] returns either a counter and no error or no
    counter and an error, never both and never neither.  A counter it
    returns is one whose topic name is the name asked for, and it
    returns the error exactly for the names outside the five topic
    names; the peer it is called on has no part in the answer. *)
Theorem GetMessageMetrics_sound pm topicName :
  match GetMessageMetrics T pm topicName with
  | (Some r, None) => topicOf T r = topicName
  | (None, Some e) =>
      ~ In topicName (pgossip.all T)
      /\ e = errors.New ("unknown topic name: " ++ topicName)
  | (Some _, Some _) | (None, None) => False
  end
  /\ (In topicName (pgossip.all T) <->
      snd (GetMessageMetrics T pm topicName) = None)
  /\ forall pm', GetMessageMetrics T pm' topicName
                 = GetMessageMetrics T pm topicName.
Proof.
  unfold GetMessageMetrics, pgossip.all. cbn [In].
  repeat match goal with
         | |- context [String.eqb topicName ?t] =>
             destruct (String.eqb_spec topicName t) as [Heq|?];
             [symmetry in Heq; cbn [snd topicOf];
              split; [exact Heq|];
              split; [split; [reflexivity | intros _; tauto]
                     | reflexivity]
             |]
         end.
  cbn [snd]. split; [split; [|reflexivity]|split; [split|reflexivity]].
  - intuition congruence.
  - intuition congruence.
  - discriminate.
Qed.

End Topics.

Section ExportLine.

Variable Sprint_float64 : float -> string.

(** X13.  Resetting the window twice is resetting it once; after a reset
    [GetAllMessagesCount] is 0 and the connected time is what it was;
    and the export line after a reset is the line before it with the
    [Attempts] column and the six counter columns at [0], every other
    column as it was. *)
Theorem reset_then_export pm :
  ResetDynamicMetrics (ResetDynamicMetrics pm) = ResetDynamicMetrics pm
  /\ GetAllMessagesCount (ResetDynamicMetrics pm) = 0
  /\ GetConnectedTime (ResetDynamicMetrics pm) = GetConnectedTime pm
  /\ ToCsvLine Sprint_float64 (ResetDynamicMetrics pm)
     = strings.Join
         (firstn 15 (csvFields Sprint_float64 pm)
          ++ "0" :: firstn 5 (skipn 16 (csvFields Sprint_float64 pm))
          ++ repeat "0" 6)%list
         ","
       ++ newline.
Proof.
  split; [vm_compute; reflexivity|].
  split; [reflexivity|]. split; [reflexivity|].
  rewrite ToCsvLine_Join. reflexivity.
Qed.

(** X15.  For every identifier the export line of a freshly created
    peer holds the identifier, nine empty columns, five [false], zero
    attempts, the error ["None"], the latency 0, empty histories, the
    connected time [0.000] and six zero counters.  It splits at the
    commas into 27 fields and one more for each comma of the identifier,
    so into exactly 27 when the identifier holds none. *)
Theorem fresh_peer_export peerId :
  ToCsvLine Sprint_float64 (NewPeer peerId)
  = peerId ++ ",,,,,,,,,,false,false,false,false,false,0,None,"
      ++ Sprint_float64 0%float ++ ",0,0,0.000,0,0,0,0,0,0" ++ newline
  /\ ((forall f c, isSeparator c ->
                   strings.Count (Sprint_float64 f) c = 0%nat) ->
      List.length
        (strings.Split (ToCsvLine Sprint_float64 (NewPeer peerId)) comma)
      = (27 + strings.Count peerId comma)%nat
      /\ (strings.Count peerId comma = 0%nat ->
          List.length
            (strings.Split (ToCsvLine Sprint_float64 (NewPeer peerId))
               comma)
          = 27%nat)).
Proof.
  split; [vm_compute; reflexivity|].
  intros Hsprint.
  assert (L : List.length
                (strings.Split (ToCsvLine Sprint_float64 (NewPeer peerId))
                   comma)
              = (27 + strings.Count peerId comma)%nat).
  { rewrite Split_length,
      (Count_ToCsvLine_comma Sprint_float64 Hsprint (NewPeer peerId)).
    unfold countInStringFields, sumCounts, stringFields.
    cbn [NewPeer PeerId NodeId UserAgent ClientName ClientVersion Pubkey
         Addrs Ip Country City Error map fold_right strings.Count].
    cbn. lia. }
  split; [exact L|]. intros Hid. now rewrite L, Hid.
Qed.

End ExportLine.

(** * The further properties at the sample data *)

(** X1 at an attempt and a reset on the peer with two sessions. *)
Lemma histories_append_only_witness :
  let ops := [OpAddNewConnectionAttempt true ""; OpResetDynamicMetrics] in
  connectionInstants ops = []
  /\ disconnectionInstants ops = []
  /\ GetConnectedTime (applyOps beforeColon sampleTopics ops peerTwoSessions)
     = GetConnectedTime peerTwoSessions.
Proof.
  cbv zeta. split; [reflexivity|]. split; [reflexivity|].
  exact (proj2 (proj2 (proj2 (proj2
           (histories_append_only beforeColon sampleTopics
              [OpAddNewConnectionAttempt true ""; OpResetDynamicMetrics]
              peerTwoSessions))))
           eq_refl eq_refl).
Defined.

(** X3 at the sample calls on a fresh peer, which end disconnected. *)
Lemma connectivity_is_last_event_witness :
  let pm := NewPeer "16Uiu2HAm" in
  (IsConnected pm = false -> ConnectedDirection pm = "")
  /\ lastConnectivity sampleOps = Some (false, "")
  /\ IsConnected (applyOps beforeColon sampleTopics sampleOps pm) = false
  /\ ConnectedDirection (applyOps beforeColon sampleTopics sampleOps pm)
     = "".
Proof.
  cbv zeta.
  assert (H0 : IsConnected (NewPeer "16Uiu2HAm") = false ->
               ConnectedDirection (NewPeer "16Uiu2HAm") = "")
    by reflexivity.
  split; [exact H0|]. split; [reflexivity|]. split; [reflexivity|].
  exact (proj2 (connectivity_is_last_event beforeColon sampleTopics
                  sampleOps (NewPeer "16Uiu2HAm")) H0 eq_refl).
Defined.

(** X5 at the sample calls, whose last reset is followed by one
    attempt. *)
Lemma attempts_since_last_reset_witness :
  in_uint64 (Attempts peerPlain)
  /\ (Attempts (applyOps beforeColon sampleTopics sampleOps peerPlain)
      = wrap_uint64
          ((if existsb isReset sampleOps then 0 else Attempts peerPlain)
           + countAttempts (sinceLastReset sampleOps))
      /\ existsb isReset (sinceLastReset sampleOps) = false
      /\ exists before, sampleOps = (before ++ sinceLastReset sampleOps)%list).
Proof.
  assert (H : in_uint64 (Attempts peerPlain))
    by (split; [discriminate | reflexivity]).
  split; [exact H|].
  exact (attempts_since_last_reset beforeColon sampleTopics sampleOps
           peerPlain H).
Defined.

(** X6 at the sample calls on a fresh peer. *)
Lemma reachable_invariants_witness :
  let pm := applyOps beforeColon sampleTopics sampleOps
              (NewPeer "16Uiu2HAm") in
  Succeed pm = true /\ Attempts pm <> 0 /\ IsConnected pm = false
  /\ Attempted pm = true /\ ConnectedDirection pm = "".
Proof.
  cbv zeta.
  pose proof (reachable_invariants beforeColon sampleTopics "16Uiu2HAm"
                sampleOps) as (_ & _ & I3 & _ & _ & I6).
  split; [reflexivity|]. split; [discriminate|]. split; [reflexivity|].
  split; [exact (I3 eq_refl) | exact (I6 eq_refl)].
Defined.

(** X7 at a peer in its first session. *)
Lemma connected_time_of_empty_history_witness :
  let pm := AddConnectionEvent "inbound" 0 (NewPeer "16Uiu2HAm") in
  (ConnectionTimes pm = [] \/ DisconnectionTimes pm = [])
  /\ (totalConnectedTime pm = 0
      /\ GetConnectedTime pm = 0%float
      /\ fmt.Sprintf_3f (GetConnectedTime pm) = "0.000").
Proof.
  cbv zeta.
  assert (H : ConnectionTimes
                (AddConnectionEvent "inbound" 0 (NewPeer "16Uiu2HAm")) = []
              \/ DisconnectionTimes
                   (AddConnectionEvent "inbound" 0 (NewPeer "16Uiu2HAm"))
                 = [])
    by (right; reflexivity).
  split; [exact H|].
  exact (connected_time_of_empty_history _ H).
Defined.

(** X8 at the peer with three sessions. *)
Lemma connected_time_no_overflow_witness :
  Z.of_nat (List.length (ConnectionTimes peerThreeSessions)) <= 1000000
  /\ ((forall c, 0 <= contribution c (DisconnectionTimes peerThreeSessions)
                   <= maxSingleConnectionTime)
      /\ totalConnectedTime peerThreeSessions
         = contributions (ConnectionTimes peerThreeSessions)
             (DisconnectionTimes peerThreeSessions)
      /\ 0 <= totalConnectedTime peerThreeSessions
           <= Z.of_nat (List.length (ConnectionTimes peerThreeSessions))
              * maxSingleConnectionTime).
Proof.
  assert (H : Z.of_nat (List.length (ConnectionTimes peerThreeSessions))
              <= 1000000) by discriminate.
  split; [exact H|].
  exact (connected_time_no_overflow peerThreeSessions H).
Defined.

(** X9 at the three sessions of 10 ms, 2.5 ms and 30 ms, with a fourth
    connection still open: 10 + 2 + 30 = 42 ms. *)
Lemma separated_sessions_counted_witness :
  sessionsFrom 0 sampleSessions
  /\ Forall (fun c => Forall (fun d => d + Millisecond <= c)
                        (map snd sampleSessions))
       [200 * Millisecond]
  /\ ConnectionTimes peerThreeSessions
     = (map fst sampleSessions ++ [200 * Millisecond])%list
  /\ DisconnectionTimes peerThreeSessions = map snd sampleSessions
  /\ sessionsTotal sampleSessions = 42
  /\ (contributions (ConnectionTimes peerThreeSessions)
        (DisconnectionTimes peerThreeSessions)
      = sessionsTotal sampleSessions
      /\ totalConnectedTime peerThreeSessions
         = wrap_int64 (sessionsTotal sampleSessions)
      /\ (Z.of_nat (List.length (ConnectionTimes peerThreeSessions))
          <= 1000000 ->
          totalConnectedTime peerThreeSessions
          = sessionsTotal sampleSessions)).
Proof.
  assert (H1 : sessionsFrom 0 sampleSessions).
  { cbn [sessionsFrom sampleSessions]. unfold Millisecond.
    repeat split; discriminate. }
  assert (H2 : Forall (fun c => Forall (fun d => d + Millisecond <= c)
                                  (map snd sampleSessions))
                 [200 * Millisecond]).
  { constructor; [|constructor]. cbn [map snd sampleSessions].
    unfold Millisecond.
    repeat (constructor; [discriminate|]). constructor. }
  split; [exact H1|]. split; [exact H2|].
  split; [reflexivity|]. split; [reflexivity|]. split; [reflexivity|].
  exact (separated_sessions_counted peerThreeSessions 0 sampleSessions
           [200 * Millisecond] H1 H2 eq_refl eq_refl).
Defined.

(** X10 at the peer with three sessions and a further event at 300 ms. *)
Lemma connected_time_monotone_witness :
  Z.of_nat (List.length (ConnectionTimes peerThreeSessions)) < 1000000
  /\ ((forall c more d,
         firstMatch c (DisconnectionTimes peerThreeSessions) = Some d ->
         contribution c (DisconnectionTimes peerThreeSessions ++ more)
         = contribution c (DisconnectionTimes peerThreeSessions))
      /\ totalConnectedTime peerThreeSessions
         <= totalConnectedTime
              (AddDisconnectionEvent (300 * Millisecond) peerThreeSessions)
      /\ totalConnectedTime peerThreeSessions
         <= totalConnectedTime
              (AddConnectionEvent "inbound" (300 * Millisecond)
                 peerThreeSessions)).
Proof.
  assert (H : Z.of_nat (List.length (ConnectionTimes peerThreeSessions))
              < 1000000) by reflexivity.
  split; [exact H|].
  exact (connected_time_monotone peerThreeSessions "inbound"
           (300 * Millisecond) H).
Defined.

(** X11 at the peer with three sessions. *)
Lemma connected_time_never_negative_witness :
  Z.of_nat (List.length (ConnectionTimes peerThreeSessions)) <= 1000000
  /\ (signBit (GetConnectedTime peerThreeSessions) = false
      /\ unsignedThreeDecimals
           (fmt.Sprintf_3f (GetConnectedTime peerThreeSessions))).
Proof.
  assert (H : Z.of_nat (List.length (ConnectionTimes peerThreeSessions))
              <= 1000000) by discriminate.
  split; [exact H|].
  exact (connected_time_never_negative peerThreeSessions H).
Defined.

(** X14 at an attempt and a connection event. *)
Lemma counters_untouched_witness :
  let ops := [OpAddNewConnectionAttempt false "i/o timeout";
              OpAddConnectionEvent "inbound" (100 * Millisecond)] in
  existsb touchesCounters ops = false
  /\ ((forall r, load r (applyOps beforeColon sampleTopics ops peerPlain)
                 = load r peerPlain)
      /\ GetAllMessagesCount (applyOps beforeColon sampleTopics ops peerPlain)
         = GetAllMessagesCount peerPlain).
Proof.
  cbv zeta. split; [reflexivity|].
  exact (counters_untouched beforeColon sampleTopics
           [OpAddNewConnectionAttempt false "i/o timeout";
            OpAddConnectionEvent "inbound" (100 * Millisecond)]
           peerPlain eq_refl).
Defined.

(** X15 at a fresh peer whose identifier holds no comma, and at one
    whose identifier holds one. *)
Lemma fresh_peer_export_witness :
  (forall f c, isSeparator c -> strings.Count (Sprint_zero f) c = 0%nat)
  /\ strings.Count "16Uiu2HAm" comma = 0%nat
  /\ ToCsvLine Sprint_zero (NewPeer "16Uiu2HAm")
     = "16Uiu2HAm"
       ++ ",,,,,,,,,,false,false,false,false,false,0,None,"
       ++ Sprint_zero 0%float ++ ",0,0,0.000,0,0,0,0,0,0" ++ newline
  /\ List.length
       (strings.Split (ToCsvLine Sprint_zero (NewPeer "16Uiu2HAm")) comma)
     = 27%nat
  /\ ToCsvLine Sprint_zero (NewPeer "16Uiu,2HAm")
     = "16Uiu,2HAm"
       ++ ",,,,,,,,,,false,false,false,false,false,0,None,"
       ++ Sprint_zero 0%float ++ ",0,0,0.000,0,0,0,0,0,0" ++ newline
  /\ List.length
       (strings.Split (ToCsvLine Sprint_zero (NewPeer "16Uiu,2HAm")) comma)
     = 28%nat.
Proof.
  destruct (fresh_peer_export Sprint_zero "16Uiu2HAm") as [E C].
  destruct (fresh_peer_export Sprint_zero "16Uiu,2HAm") as [E' C'].
  split; [exact Sprint_zero_plain|]. split; [reflexivity|].
  split; [exact E|].
  split; [exact (proj2 (C Sprint_zero_plain) eq_refl)|].
  split; [exact E' | exact (proj1 (C' Sprint_zero_plain))].
Defined.
